(** * A shallow embedding of the blog API (server/app.py, server/models.py)

    The Flask resources are embedded as computations in a state-and-exception
    monad over a [World]: the signed session cookie, the committed tables of
    the relational store, the unit of work of [db.session] and the log of the
    operations issued on it.  Python values that travel in JSON bodies are
    kept dynamically typed ([json]); dictionaries are [gmap string _]. *)

From Stdlib Require Import ZArith String List Lia.
From stdpp Require Import base gmap strings list fin_maps.

#[local] Set Warnings "-register-all".
#[local] Open Scope string_scope.
#[local] Open Scope Z_scope.

(** ** Python values *)

Module Py.

(** Values of a decoded JSON document, which are also the values a handler
    returns as a response body.  Numbers are Python [int]s. *)
Inductive json : Type :=
  | JNull
  | JBool (b : bool)
  | JNum (n : Z)
  | JStr (s : string)
  | JArr (xs : list json)
  | JObj (fields : list (string * json)).

Fixpoint json_eq_dec (a b : json) {struct a} : {a = b} + {a <> b}.
Proof.
  decide equality.
  - apply bool_eq_dec.
  - apply Z.eq_dec.
  - apply string_dec.
  - apply (List.list_eq_dec json_eq_dec).
  - apply List.list_eq_dec. decide equality. apply string_dec.
Defined.

#[global] Instance json_eq_decision : EqDecision json := json_eq_dec.

(** [bool(v)]: [None], [False], [0], the empty string, list and dict are
    falsy. *)
Definition truthy (v : json) : bool :=
  match v with
  | JNull => false
  | JBool b => b
  | JNum n => negb (n =? 0)
  | JStr s => negb (bool_decide (s = EmptyString))
  | JArr xs => negb (bool_decide (xs = []))
  | JObj fs => negb (bool_decide (fs = []))
  end.

(** The two kinds of value the handlers store in the session cookie. *)
Inductive sval : Type :=
  | SNone
  | SInt (n : Z).

#[global] Instance sval_eq_decision : EqDecision sval.
Proof. solve_decision. Defined.

Definition sval_truthy (v : sval) : bool :=
  match v with
  | SNone => false
  | SInt n => negb (n =? 0)
  end.

(** The exceptions that occur in the handlers. *)
Inductive exn : Type :=
  | KeyError (key : string)
  | AttributeError (msg : string)
  | TypeError (msg : string)
  | ValueError (msg : string)
  | IntegrityError (msg : string)
  | DataError (msg : string).

#[global] Instance exn_eq_decision : EqDecision exn.
Proof. solve_decision. Defined.

(** [str(e)] *)
Definition exn_str (e : exn) : string :=
  match e with
  | KeyError k => "'" +:+ k +:+ "'"
  | AttributeError m | TypeError m | ValueError m | IntegrityError m
  | DataError m => m
  end.

Inductive outcome (A : Type) : Type :=
  | Ok (a : A)
  | Raise (e : exn).
Arguments Ok {A} a.
Arguments Raise {A} e.

(** [d.get(k)] for an object given as the list of its fields. *)
Fixpoint field (k : string) (fs : list (string * json)) : option json :=
  match fs with
  | [] => None
  | (k', v) :: fs' => if String.eqb k k' then Some v else field k fs'
  end.

Definition obj_field (k : string) (v : json) : option json :=
  match v with
  | JObj fs => field k fs
  | _ => None
  end.

End Py.
Export Py.

(** ** models.py *)

Module Models.

Definition DEFAULT_PREVIEW_IMAGE : string :=
  "https://res.cloudinary.com/df3n8xhsq/image/upload/v1744458196/341-800x450_zeafvw.jpg".

Definition DEFAULT_AVATAR : string :=
  "https://res.cloudinary.com/df3n8xhsq/image/upload/w_1000,c_fill,ar_1:1,g_auto,r_max,bo_5px_solid_red,b_rgb:262c35/v1744403231/bear_hh1n40.png".

(** The members of [tag_enum]. *)
Definition tag_enum : list string := ["Product"; "Engineering"; "Design"].

(** A row of [users].  Column values other than the generated key are the
    Python values bound at insert. *)
Record User : Type := {
  User_id : Z;
  User_username : json;
  User__password_hash : json;
  User_avatar : json
}.

(** A row of [articles]. *)
Record Article : Type := {
  Article_id : Z;
  Article_author : json;
  Article_title : json;
  Article_content : json;
  Article_preview_text : json;
  Article_preview_image : json;
  Article_minutes_to_read : json;
  Article_tag : json;
  Article_date : json;
  Article_user_id : json
}.

#[global] Instance User_eq_decision : EqDecision User.
Proof. solve_decision. Defined.
#[global] Instance Article_eq_decision : EqDecision Article.
Proof. solve_decision. Defined.

(** The committed tables. *)
Record Database : Type := {
  users : list User;
  articles : list Article
}.

(** [User.password_hash], the getter of the hybrid property. *)
Definition User_password_hash (u : User) : outcome json :=
  Raise (AttributeError "Password hash cannot be viewed").

(** *** Queries *)

(** [User.query.filter(User.id == v).first()] and [User.query.get(v)]: the
    comparison with [None] is [IS NULL], which no primary key satisfies. *)
Definition user_by_id (d : Database) (v : sval) : option User :=
  match v with
  | SNone => None
  | SInt n => List.find (fun u => User_id u =? n) (users d)
  end.

(** [User.query.filter_by(username=v).first()].  The comparison is the one
    of values of the column's type, strings; what an engine makes of a bound
    value of another type (a number compared as text, a list refused by the
    driver) is not modelled, and the statements that depend on the lookup of
    such a value say so. *)
Definition user_by_username (d : Database) (v : json) : option User :=
  List.find (fun u => bool_decide (User_username u = v)) (users d).

(** [Article.query.filter(Article.id == id).first()] *)
Definition article_by_id (d : Database) (id : Z) : option Article :=
  List.find (fun a => Article_id a =? id) (articles d).

(** [Article.query.filter_by(user_id=n).all()], also the collection behind
    the relationship [User.articles]. *)
Definition articles_of (d : Database) (n : Z) : list Article :=
  List.filter (fun a => bool_decide (Article_user_id a = JNum n)) (articles d).

(** The backref [Article.user]. *)
Definition article_user (d : Database) (a : Article) : option User :=
  match Article_user_id a with
  | JNum n => user_by_id d (SInt n)
  | _ => None
  end.

(** *** Serialization (SerializerMixin.to_dict)

    The mixin serializes every mapped attribute of the model, columns and
    relationships, under the attribute's own name, except the paths removed
    by [serialize_rules].  [User] declares only ['-articles.user'] and
    [Article] only ['-user.articles'], so the column attribute
    [_password_hash] is among the serialized keys; the hybrid property
    [password_hash] is not a mapped attribute and is not visited. *)

Definition article_columns (a : Article) : list (string * json) :=
  [ ("id", JNum (Article_id a));
    ("author", Article_author a);
    ("title", Article_title a);
    ("content", Article_content a);
    ("preview_text", Article_preview_text a);
    ("preview_image", Article_preview_image a);
    ("minutes_to_read", Article_minutes_to_read a);
    ("tag", Article_tag a);
    ("date", Article_date a);
    ("user_id", Article_user_id a) ].

Definition user_columns (u : User) : list (string * json) :=
  [ ("id", JNum (User_id u));
    ("username", User_username u);
    ("_password_hash", User__password_hash u);
    ("avatar", User_avatar u) ].

(** [user.to_dict()]: the nested articles lose their [user] key. *)
Definition User_to_dict (d : Database) (u : User) : json :=
  JObj (user_columns u ++
        [ ("articles",
           JArr (List.map (fun a => JObj (article_columns a))
                          (articles_of d (User_id u)))) ]).

(** [article.to_dict()]: the nested user loses its [articles] key. *)
Definition Article_to_dict (d : Database) (a : Article) : json :=
  JObj (article_columns a ++
        [ ("user",
           match article_user d a with
           | Some u => JObj (user_columns u)
           | None => JNull
           end) ]).

End Models.
Export Models.

(** ** The unit of work of [db.session] *)

Module Store.

(** An object handed to [db.session.add] and not yet flushed: a [User] with
    its two assigned attributes, or an [Article] with the keyword arguments
    of its constructor. *)
Inductive row : Type :=
  | PUser (username password_hash : json)
  | PArticle (kw : gmap string json).

(** A flushed object, as the handler sees it after the commit. *)
Inductive entity : Type :=
  | EUser (u : User)
  | EArticle (a : Article).

(** The calls issued on [db.session], most recent last. *)
Inductive db_op : Type :=
  | OpAdd
  | OpCommit
  | OpRollback.

#[global] Instance db_op_eq_decision : EqDecision db_op.
Proof. solve_decision. Defined.

(** The next value of an integer primary key. *)
Definition next_id (ids : list Z) : Z :=
  1 + List.fold_right Z.max 0 ids.

(** A keyword argument that was not passed leaves the column NULL unless the
    column declares a default.  A value that was passed is kept as it is,
    which is what the store does with a value of the column's type; the
    conversions and refusals of an engine on other values are not modelled,
    and the statements on what is stored are made for values of the
    column's type. *)
Definition column (kw : gmap string json) (k : string) (dflt : json) : json :=
  default dflt (kw !! k).

Definition new_article (d : Database) (now : json) (kw : gmap string json) : Article :=
  {| Article_id := next_id (List.map Article_id (articles d));
     Article_author := column kw "author" JNull;
     Article_title := column kw "title" JNull;
     Article_content := column kw "content" JNull;
     Article_preview_text := column kw "preview_text" JNull;
     Article_preview_image := column kw "preview_image" (JStr DEFAULT_PREVIEW_IMAGE);
     Article_minutes_to_read := column kw "minutes_to_read" JNull;
     Article_tag := column kw "tag" (JStr "Engineering");
     Article_date := now;
     Article_user_id := column kw "user_id" JNull |}.

(** The row of a new user; the username is kept as bound, see [column]. *)
Definition new_user (d : Database) (username password_hash : json) : User :=
  {| User_id := next_id (List.map User_id (users d));
     User_username := username;
     User__password_hash := password_hash;
     User_avatar := JStr DEFAULT_AVATAR |}.

Definition is_tag (v : json) : bool :=
  bool_decide (Exists (fun t => v = JStr t) tag_enum).

(** The INSERT of one pending object, with the constraints the models
    declare: [unique=True] on [users.username], the enumeration and
    [nullable=False] of [articles.tag], the foreign key of
    [articles.user_id]. *)
Definition insert_row (now : json) (d : Database) (r : row) : outcome (Database * entity) :=
  match r with
  | PUser name h =>
      if bool_decide (name <> JNull) && bool_decide (is_Some (user_by_username d name))
      then Raise (IntegrityError "UNIQUE constraint failed: users.username")
      else
        let u := new_user d name h in
        Ok ({| users := users d ++ [u]; articles := articles d |}, EUser u)
  | PArticle kw =>
      let a := new_article d now kw in
      if bool_decide (Article_tag a = JNull)
      then Raise (IntegrityError "NOT NULL constraint failed: articles.tag")
      else if negb (is_tag (Article_tag a))
      then Raise (DataError "invalid input value for enum tag_enum")
      else
        match Article_user_id a with
        | JNull =>
            Ok ({| users := users d; articles := articles d ++ [a] |}, EArticle a)
        | JNum n =>
            if bool_decide (is_Some (user_by_id d (SInt n)))
            then Ok ({| users := users d; articles := articles d ++ [a] |}, EArticle a)
            else Raise (IntegrityError "FOREIGN KEY constraint failed")
        | _ => Raise (DataError "invalid input value for integer column user_id")
        end
  end.

(** The flush of the pending objects, in the order they were added.  It is
    one transaction: the caller keeps the old tables when it fails. *)
Fixpoint flush (now : json) (d : Database) (rs : list row) : outcome (Database * list entity) :=
  match rs with
  | [] => Ok (d, [])
  | r :: rs' =>
      match insert_row now d r with
      | Raise e => Raise e
      | Ok (d', x) =>
          match flush now d' rs' with
          | Raise e => Raise e
          | Ok (d'', xs) => Ok (d'', x :: xs)
          end
      end
  end.

End Store.
Export Store.

(** ** The handler monad *)

Module Handler.

(** What a request handler reads and writes. *)
Record World : Type := {
  session : gmap string sval;
  tables : Database;
  pending : list row;
  ops : list db_op
}.

(** The world at the start of a request: the scoped [db.session] is new. *)
Definition enter (s : gmap string sval) (d : Database) : World :=
  {| session := s; tables := d; pending := []; ops := [] |}.

Definition M (A : Type) : Type := World -> outcome A * World.

Definition ret {A} (a : A) : M A := fun w => (Ok a, w).

Definition bind {A B} (c : M A) (k : A -> M B) : M B :=
  fun w =>
    match c w with
    | (Ok a, w') => k a w'
    | (Raise e, w') => (Raise e, w')
    end.

Definition raise {A} (e : exn) : M A := fun w => (Raise e, w).

(** [try: c  except <handled> as e: h e] *)
Definition try_except {A} (c : M A) (handled : exn -> bool) (h : exn -> M A) : M A :=
  fun w =>
    match c w with
    | (Ok a, w') => (Ok a, w')
    | (Raise e, w') => if handled e then h e w' else (Raise e, w')
    end.

Declare Scope handler_scope.
Delimit Scope handler_scope with handler.
Notation "x <- c ;; k" := (bind c (fun x => k))
  (at level 100, c at next level, right associativity) : handler_scope.
Notation "c ;;; k" := (bind c (fun _ => k))
  (at level 100, right associativity) : handler_scope.
#[local] Open Scope handler_scope.

(** [session.get(k)] *)
Definition session_get (k : string) : M sval :=
  fun w => (Ok (default SNone (session w !! k)), w).

(** [session[k]] *)
Definition session_item (k : string) : M sval :=
  fun w =>
    match session w !! k with
    | Some v => (Ok v, w)
    | None => (Raise (KeyError k), w)
    end.

(** [session[k] = v] *)
Definition session_set (k : string) (v : sval) : M unit :=
  fun w =>
    (Ok tt, {| session := <[k := v]> (session w); tables := tables w;
               pending := pending w; ops := ops w |}).

(** [d[k]] on the decoded JSON body *)
Definition item (d : gmap string json) (k : string) : M json :=
  match d !! k with
  | Some v => ret v
  | None => raise (KeyError k)
  end.

(** An integer operand taken from the session. *)
Definition as_int (v : sval) : M Z :=
  match v with
  | SInt n => ret n
  | SNone => raise (TypeError "unsupported operand type(s): 'NoneType' and 'int'")
  end.

Definition query {A} (q : Database -> A) : M A :=
  fun w => (Ok (q (tables w)), w).

(** [db.session.add(obj)] *)
Definition db_session_add (r : row) : M unit :=
  fun w =>
    (Ok tt, {| session := session w; tables := tables w;
               pending := pending w ++ [r]; ops := ops w ++ [OpAdd] |}).

(** [db.session.commit()]: on success the pending objects are in the tables;
    on failure the flush is undone, the tables are as before and the objects
    are expunged from the session, which then waits for a rollback. *)
Definition db_session_commit (now : json) : M (list entity) :=
  fun w =>
    match flush now (tables w) (pending w) with
    | Ok (d, xs) =>
        (Ok xs, {| session := session w; tables := d;
                   pending := []; ops := ops w ++ [OpCommit] |})
    | Raise e =>
        (Raise e, {| session := session w; tables := tables w;
                     pending := []; ops := ops w ++ [OpCommit] |})
    end.

(** [db.session.rollback()] *)
Definition db_session_rollback : M unit :=
  fun w =>
    (Ok tt, {| session := session w; tables := tables w;
               pending := []; ops := ops w ++ [OpRollback] |}).

End Handler.
Export Handler.

(** ** app.py: the resources *)

(** The collaborators of the handlers that live outside the repository:
    the two operations of flask_bcrypt, which may raise, and the clock the
    store reads for [server_default=db.func.now()]. *)
Class Runtime : Type := {
  generate_password_hash : json -> outcome string;
  check_password_hash : json -> json -> outcome bool;
  now : json
}.

Module Resources.

#[local] Open Scope handler_scope.

(** A response: the body and the status code. *)
Definition response : Type := json * Z.

Definition sval_json (v : sval) : json :=
  match v with
  | SNone => JNull
  | SInt n => JNum n
  end.

Definition lift {A} (o : outcome A) : M A :=
  match o with
  | Ok a => ret a
  | Raise e => raise e
  end.

Section WithRuntime.

Context `{Runtime}.

(** The setter of [User.password_hash]: the value kept for the column
    [_password_hash] is the decoded result of the hash function. *)
Definition User_set_password_hash (password : json) : M json :=
  password_hash <- lift (generate_password_hash password) ;;
  ret (JStr password_hash).

(** [User.authenticate] *)
Definition User_authenticate (u : User) (password : json) : M bool :=
  lift (check_password_hash (User__password_hash u) password).

(** [ClearSession.delete] *)
Definition ClearSession_delete : M response :=
  session_set "page_views" SNone ;;;
  session_set "user_id" SNone ;;;
  ret (JObj [], 204).

(** [IndexArticle.get] *)
Definition IndexArticle_get : M response :=
  d <- query (fun d => d) ;;
  ret (JArr (List.map (Article_to_dict d) (articles d)), 200).

Definition NoneType_to_dict : exn :=
  AttributeError "'NoneType' object has no attribute 'to_dict'".

(** [ShowArticle.get] *)
Definition ShowArticle_get (id : Z) : M response :=
  page_views <- session_get "page_views" ;;
  session_set "page_views"
    (if negb (sval_truthy page_views) then SInt 0 else page_views) ;;;
  old <- session_item "page_views" ;;
  n <- as_int old ;;
  session_set "page_views" (SInt (n + 1)) ;;;
  cur <- session_item "page_views" ;;
  c <- as_int cur ;;
  if c <=? 100 then
    article <- query (fun d => article_by_id d id) ;;
    match article with
    | Some a =>
        d <- query (fun d => d) ;;
        ret (Article_to_dict d a, 200)
    | None => raise NoneType_to_dict
    end
  else ret (JObj [("message", JStr "Maximum pageview limit reached")], 401).

(** [GetArticle.get] *)
Definition GetArticle_get : M response :=
  user_id <- session_get "user_id" ;;
  if negb (sval_truthy user_id) then
    ret (JObj [("Error", JStr "Unauthorized")], 401)
  else
    n <- as_int user_id ;;
    d <- query (fun d => d) ;;
    ret (JArr (List.map (Article_to_dict d) (articles_of d n)), 200).

Definition required_fields : list string :=
  ["title"; "content"; "preview_text"; "minutes_to_read"].

Definition allowed_tags : list string := ["Product"; "Engineering"; "Design"].

(** [v in allowed_tags] *)
Definition in_allowed_tags (v : json) : bool :=
  existsb (fun t => bool_decide (v = JStr t)) allowed_tags.

(** The items of the dictionary literal [article_data]. *)
Definition article_items (user : User) (user_id : sval) (data : gmap string json)
    (title content preview_text minutes_to_read : json) : list (string * json) :=
  [ ("author", User_username user);
    ("title", title);
    ("content", content);
    ("preview_text", preview_text);
    ("minutes_to_read", minutes_to_read);
    ("user_id", sval_json user_id);
    ("tag", default JNull (data !! "tag"));
    ("preview_image", default JNull (data !! "preview_image")) ].

(** [{k: v for k, v in article_data.items() if v is not None}] *)
Definition drop_none (items : list (string * json)) : gmap string json :=
  list_to_map (List.filter (fun kv => negb (bool_decide (kv.2 = JNull))) items).

Definition not_persistent : exn :=
  AttributeError "object is not persistent".

(** The body of the [try] block of [CreateArticle.post]. *)
Definition CreateArticle_try (user : User) (user_id : sval) (data : gmap string json)
    : M response :=
  title <- item data "title" ;;
  content <- item data "content" ;;
  preview_text <- item data "preview_text" ;;
  minutes_to_read <- item data "minutes_to_read" ;;
  let article_data :=
    drop_none (article_items user user_id data title content preview_text minutes_to_read) in
  db_session_add (PArticle article_data) ;;;
  flushed <- db_session_commit now ;;
  match flushed with
  | [EArticle article] =>
      d <- query (fun d => d) ;;
      ret (Article_to_dict d article, 201)
  | _ => raise not_persistent
  end.

(** The [try] statement of [CreateArticle.post] with its clause
    [except (IntegrityError, ValueError)]. *)
Definition CreateArticle_guarded (user : User) (user_id : sval) (data : gmap string json)
    : M response :=
  try_except (CreateArticle_try user user_id data)
    (fun e => match e with
              | IntegrityError _ | ValueError _ => true
              | _ => false
              end)
    (fun e =>
       db_session_rollback ;;;
       ret (JObj [("Error", JStr (exn_str e))], 400)).

(** [CreateArticle.post] *)
Definition CreateArticle_post (data : gmap string json) : M response :=
  user_id <- session_get "user_id" ;;
  if negb (sval_truthy user_id) then
    ret (JObj [("Error", JStr "Unauthorized. Please log in")], 401)
  else
    user <- query (fun d => user_by_id d user_id) ;;
    match user with
    | None => ret (JObj [("Error", JStr "User not found")], 404)
    | Some user =>
        if negb (forallb (fun f => bool_decide (is_Some (data !! f))) required_fields) then
          ret (JObj [("Error",
                      JStr "Missing required fields: ['title', 'content', 'preview_text', 'minutes_to_read']")],
               400)
        else if bool_decide (is_Some (data !! "tag"))
                && negb (in_allowed_tags (default JNull (data !! "tag"))) then
          ret (JObj [("error",
                      JStr "Invalid tag. Allowed values: ['Product', 'Engineering', 'Design']")],
               400)
        else CreateArticle_guarded user user_id data
    end.

Definition Invalid_credentials : response :=
  (JObj [("Error", JStr "Invalid credentials")], 401).

(** [Login.post] *)
Definition Login_post (body : gmap string json) : M response :=
  username <- item body "username" ;;
  password <- item body "password" ;;
  if negb (truthy username) || negb (truthy password) then
    ret (JObj [("error", JStr "Username and password are required")], 400)
  else
    user <- query (fun d => user_by_username d username) ;;
    match user with
    | Some u =>
        authenticated <- User_authenticate u password ;;
        if authenticated then
          session_set "user_id" (SInt (User_id u)) ;;;
          d <- query (fun d => d) ;;
          ret (User_to_dict d u, 200)
        else ret Invalid_credentials
    | None => ret Invalid_credentials
    end.

(** The body of the [try] block of [SignUp.post]. *)
Definition SignUp_try (username password : json) : M response :=
  password_hash <- User_set_password_hash password ;;
  db_session_add (PUser username password_hash) ;;;
  flushed <- db_session_commit now ;;
  match flushed with
  | [EUser user] =>
      session_set "user_id" (SInt (User_id user)) ;;;
      d <- query (fun d => d) ;;
      ret (User_to_dict d user, 201)
  | _ => raise not_persistent
  end.

(** The [try] statement of [SignUp.post] with its clause
    [except ValueError]. *)
Definition SignUp_guarded (username password : json) : M response :=
  try_except (SignUp_try username password)
    (fun e => match e with
              | ValueError _ => true
              | _ => false
              end)
    (fun e => ret (JObj [("error", JStr (exn_str e))], 400)).

(** [SignUp.post] *)
Definition SignUp_post (body : gmap string json) : M response :=
  username <- item body "username" ;;
  password <- item body "password" ;;
  if negb (truthy username) || negb (truthy password) then
    ret (JObj [("Error", JStr "Username and password are required")], 400)
  else
    existing <- query (fun d => user_by_username d username) ;;
    if bool_decide (is_Some existing) then
      ret (JObj [("Error", JStr "Username already exists")], 409)
    else SignUp_guarded username password.

(** [Logout.delete] *)
Definition Logout_delete : M response :=
  session_set "user_id" SNone ;;;
  ret (JStr EmptyString, 204).

(** [CheckSession.get] *)
Definition CheckSession_get : M response :=
  user_id <- session_get "user_id" ;;
  user <- query (fun d => user_by_id d user_id) ;;
  match user with
  | Some u =>
      d <- query (fun d => d) ;;
      ret (User_to_dict d u, 200)
  | None => ret (JObj [], 401)
  end.

End WithRuntime.

End Resources.
Export Resources.

(** ** Vocabulary of the statements *)

Module Vocabulary.

(** The view counter a handler finds in the session: an absent key and
    [None] read as [0]. *)
Definition page_views_of (s : gmap string sval) : Z :=
  match default SNone (s !! "page_views") with
  | SNone => 0
  | SInt n => n
  end.

Definition with_session (w : World) (s : gmap string sval) : World :=
  {| session := s; tables := tables w; pending := pending w; ops := ops w |}.

Definition limit_reached : response :=
  (JObj [("message", JStr "Maximum pageview limit reached")], 401).

(** The world after the same browser session has requested
    [GET /articles/<id>] for each [id] of the list, in order. *)
Fixpoint views (ids : list Z) (w : World) : World :=
  match ids with
  | [] => w
  | id :: ids' => views ids' (ShowArticle_get id w).2
  end.

Definition credentials_required_login : response :=
  (JObj [("error", JStr "Username and password are required")], 400).

Definition credentials_required_signup : response :=
  (JObj [("Error", JStr "Username and password are required")], 400).

Definition username_exists : response :=
  (JObj [("Error", JStr "Username already exists")], 409).

Definition please_log_in : response :=
  (JObj [("Error", JStr "Unauthorized. Please log in")], 401).

Definition user_not_found : response :=
  (JObj [("Error", JStr "User not found")], 404).

Definition invalid_tag : response :=
  (JObj [("error", JStr "Invalid tag. Allowed values: ['Product', 'Engineering', 'Design']")],
   400).

Definition missing_fields : response :=
  (JObj [("Error",
          JStr "Missing required fields: ['title', 'content', 'preview_text', 'minutes_to_read']")],
   400).

(** The status code of the outcome of a handler, when it returns. *)
Definition status_of (o : outcome response) : option Z :=
  match o with
  | Ok (_, st) => Some st
  | Raise _ => None
  end.

(** The body of the outcome of a handler, when it returns. *)
Definition body_of (o : outcome response) : option json :=
  match o with
  | Ok (body, _) => Some body
  | Raise _ => None
  end.

(** The number of rows of [users] that carry a username. *)
Definition count_username (d : Database) (name : json) : nat :=
  length (List.filter (fun u => bool_decide (User_username u = name)) (users d)).

(** The tables with one more row of [users]. *)
Definition with_user (d : Database) (u : User) : Database :=
  {| users := users d ++ [u]; articles := articles d |}.

(** The tables with one more row of [articles]. *)
Definition with_article (d : Database) (a : Article) : Database :=
  {| users := users d; articles := articles d ++ [a] |}.

End Vocabulary.
Export Vocabulary.

(** ** Sample data for the concrete runs *)

Module Sample.

(** A stand-in for flask_bcrypt over bcrypt 5 with the same exceptions: the
    empty password and a password of more than 72 bytes are refused with
    [ValueError], a password that is not a string with [TypeError].  The
    digest is transparent, which is all the concrete runs need. *)
Definition sample_hash (p : json) : outcome string :=
  if negb (truthy p) then Raise (ValueError "Password must be non-empty.")
  else
    match p with
    | JStr s =>
        if 72 <? Z.of_nat (String.length s)
        then Raise (ValueError "password cannot be longer than 72 bytes, truncate manually if necessary (e.g. my_password[:72])")
        else Ok ("$2b$12$" +:+ s)
    | _ => Raise (TypeError "Strings must be encoded before hashing")
    end.

Definition sample_check (h p : json) : outcome bool :=
  match h, p with
  | JStr hs, JStr s => Ok (bool_decide (hs = "$2b$12$" +:+ s))
  | _, _ => Raise (TypeError "Strings must be encoded before checking")
  end.

Definition sample_runtime : Runtime :=
  {| generate_password_hash := sample_hash;
     check_password_hash := sample_check;
     now := JStr "2025-04-12 10:00:00" |}.

Definition alice : User :=
  {| User_id := 1;
     User_username := JStr "alice";
     User__password_hash := JStr "$2b$12$wonderland";
     User_avatar := JStr DEFAULT_AVATAR |}.

(** A user whose row is not in the sample store. *)
Definition bob : User :=
  {| User_id := 2;
     User_username := JStr "bob";
     User__password_hash := JStr "$2b$12$builder";
     User_avatar := JStr DEFAULT_AVATAR |}.

Definition first_post : Article :=
  {| Article_id := 1;
     Article_author := JStr "alice";
     Article_title := JStr "Hello";
     Article_content := JStr "First post";
     Article_preview_text := JStr "Hello";
     Article_preview_image := JStr DEFAULT_PREVIEW_IMAGE;
     Article_minutes_to_read := JNum 2;
     Article_tag := JStr "Design";
     Article_date := JStr "2025-04-11 09:00:00";
     Article_user_id := JNum 1 |}.

Definition empty_db : Database := {| users := []; articles := [] |}.

Definition blog_db : Database := {| users := [alice]; articles := [first_post] |}.

(** A password of 73 characters. *)
Definition long_password : string :=
  "aaaaaaaaaaaaaaaaaaaaaaaaaaaaaaaaaaaaaaaaaaaaaaaaaaaaaaaaaaaaaaaaaaaaaaaaa".

Definition credentials (username password : json) : gmap string json :=
  <["username" := username]> (<["password" := password]> ∅).

Definition logged_in (n : Z) : gmap string sval :=
  <["user_id" := SInt n]> ∅.

Definition draft : gmap string json :=
  <["title" := JStr "Second"]>
    (<["content" := JStr "More"]>
       (<["preview_text" := JStr "More"]>
          (<["minutes_to_read" := JNum 3]> ∅))).

End Sample.
Export Sample.

(** ** app.py: the image upload *)

Module Upload.

#[local] Open Scope handler_scope.

(** An entry of [request.files]. *)
Record FileStorage : Type := {
  filename : string;
  content : list Byte.byte
}.

(** The keyword arguments of [cloudinary.uploader.upload]. *)
Record upload_options : Type := {
  folder : string;
  allowed_formats : list string;
  transformation : list (list (string * json))
}.

(** What a call of the uploader ends in: the result payload, or an exception
    [e], of which the handler uses [str(e)] only. *)
Inductive upload_result : Type :=
  | Uploaded (payload : json)
  | UploadFailed (str_e : string).

(** The image host, outside the repository. *)
Class Cloudinary : Type := {
  uploader_upload : FileStorage -> upload_options -> upload_result
}.

Definition article_images : upload_options :=
  {| folder := "article_images";
     allowed_formats := ["jpg"; "png"; "jpeg"; "gif"];
     transformation :=
       [[("width", JNum 1200); ("height", JNum 630); ("crop", JStr "limit")]] |}.

(** [UploadImage.post]; the clause [except Exception] catches whatever the
    uploader raises. *)
Definition UploadImage_post `{Cloudinary} (files : gmap string FileStorage) : M response :=
  user_id <- session_get "user_id" ;;
  if negb (sval_truthy user_id) then
    ret (JObj [("error", JStr "Unauthorized")], 401)
  else
    match files !! "image" with
    | None => ret (JObj [("error", JStr "No image provided")], 400)
    | Some file =>
        if bool_decide (filename file = EmptyString) then
          ret (JObj [("error", JStr "No selected file")], 400)
        else
          match uploader_upload file article_images with
          | Uploaded upload_result => ret (upload_result, 200)
          | UploadFailed str_e => ret (JObj [("error", JStr str_e)], 500)
          end
    end.

End Upload.
Export Upload.

(** ** app.py: the registered resources *)

Module Routing.

(** A request that the routes of [api.add_resource] accept, with what the
    handler reads of it. *)
Inductive request : Type :=
  | DELETE_clear
  | GET_articles
  | GET_articles_id (id : Z)
  | POST_login (body : gmap string json)
  | DELETE_logout
  | GET_check_session
  | POST_signup (body : gmap string json)
  | POST_articles_create (data : gmap string json)
  | GET_my_articles
  | POST_upload_image (files : gmap string FileStorage).

Section WithCollaborators.

Context `{Runtime} `{Cloudinary}.

Definition dispatch (r : request) : M response :=
  match r with
  | DELETE_clear => ClearSession_delete
  | GET_articles => IndexArticle_get
  | GET_articles_id id => ShowArticle_get id
  | POST_login body => Login_post body
  | DELETE_logout => Logout_delete
  | GET_check_session => CheckSession_get
  | POST_signup body => SignUp_post body
  | POST_articles_create data => CreateArticle_post data
  | GET_my_articles => GetArticle_get
  | POST_upload_image files => UploadImage_post files
  end.

(** The tables after the requests of a list were served in order, each one
    arriving with the session cookie paired with it.  A request that the rate
    limiter refuses does not reach its handler and is not in the list. *)
Fixpoint replay (calls : list (gmap string sval * request)) (d : Database) : Database :=
  match calls with
  | [] => d
  | (s, r) :: calls' => replay calls' (tables (dispatch r (enter s d)).2)
  end.

End WithCollaborators.

End Routing.
Export Routing.

(** ** Vocabulary of the statements on the store *)

Module StoreVocabulary.

(** The author of an article is a row of [users]. *)
Definition has_author (d : Database) (a : Article) : Prop :=
  match Article_user_id a with
  | JNum n => is_Some (user_by_id d (SInt n))
  | _ => False
  end.

#[global] Instance has_author_dec d a : Decision (has_author d a).
Proof. unfold has_author. destruct (Article_user_id a); apply _. Defined.

(** The constraints that [models.py] declares, read on the tables: primary
    keys and usernames are unique, every tag is a member of the enumeration,
    every article has its author. *)
Definition store_ok (d : Database) : Prop :=
  NoDup (List.map User_id (users d))
  /\ NoDup (List.map User_username (users d))
  /\ NoDup (List.map Article_id (articles d))
  /\ Forall (fun a => is_tag (Article_tag a) = true /\ has_author d a) (articles d).

#[global] Instance store_ok_dec d : Decision (store_ok d).
Proof. unfold store_ok. apply _. Defined.

(** A value of the body, or the default of the column when the key is absent
    or the value is [None]. *)
Definition or_column_default (v : option json) (dflt : json) : json :=
  match v with
  | Some x => if bool_decide (x = JNull) then dflt else x
  | None => dflt
  end.

(** The row that a request to create an article adds for the user [user]
    of id [n]. *)
Definition created_article `{Runtime} (d : Database) (user : User) (n : Z)
    (data : gmap string json) : Article :=
  {| Article_id := next_id (List.map Article_id (articles d));
     Article_author := User_username user;
     Article_title := default JNull (data !! "title");
     Article_content := default JNull (data !! "content");
     Article_preview_text := default JNull (data !! "preview_text");
     Article_preview_image :=
       or_column_default (data !! "preview_image") (JStr DEFAULT_PREVIEW_IMAGE);
     Article_minutes_to_read := default JNull (data !! "minutes_to_read");
     Article_tag := or_column_default (data !! "tag") (JStr "Engineering");
     Article_date := now;
     Article_user_id := JNum n |}.

(** A value for a [String] column: absent, [None], or a string without a
    NUL character. *)
Definition text_typed (v : option json) : bool :=
  match v with
  | None | Some JNull => true
  | Some (JStr s) =>
      forallb (fun c => negb (Ascii.eqb c Ascii.zero)) (list_ascii_of_string s)
  | Some _ => false
  end.

(** A value for an [Integer] column: absent, [None], or an integer of 32
    bits. *)
Definition integer_typed (v : option json) : bool :=
  match v with
  | None | Some JNull => true
  | Some (JNum n) => (- 2 ^ 31 <=? n) && (n <? 2 ^ 31)
  | Some _ => false
  end.

(** The body of a request to create an article carries, for every column it
    fills, a value of the column's type. *)
Definition column_typed (data : gmap string json) : bool :=
  text_typed (data !! "title") && text_typed (data !! "content")
  && text_typed (data !! "preview_text") && text_typed (data !! "preview_image")
  && integer_typed (data !! "minutes_to_read").

(** A request is ready for the [try] statement when the four required
    fields are there and the tag, if any, is in the enumeration. *)
Definition accepted (data : gmap string json) : bool :=
  forallb (fun f => bool_decide (is_Some (data !! f))) required_fields
  && negb (bool_decide (is_Some (data !! "tag"))
           && negb (in_allowed_tags (default JNull (data !! "tag")))).

(** The list that a listing endpoint returned. *)
Definition listing (o : outcome response) : list json :=
  match o with
  | Ok (JArr xs, _) => xs
  | _ => []
  end.

End StoreVocabulary.
Export StoreVocabulary.

(** ** More sample data *)

Module MoreSamples.

(** An image host that accepts the four formats by the file's extension and
    fails on anything else. *)
Definition sample_upload (f : FileStorage) (o : upload_options) : upload_result :=
  if existsb (fun ext => String.eqb (filename f) ("cover." +:+ ext)) (allowed_formats o)
  then Uploaded (JObj [("secure_url",
                        JStr ("https://res.cloudinary.com/demo/" +:+ folder o +:+ "/"
                              +:+ filename f))])
  else UploadFailed "Image file format not allowed".

Definition sample_cloudinary : Cloudinary :=
  {| uploader_upload := sample_upload |}.

Definition cover_png : FileStorage :=
  {| filename := "cover.png"; content := [] |}.

Definition notes_txt : FileStorage :=
  {| filename := "notes.txt"; content := [] |}.

(** The sample draft with an author of the client's choosing. *)
Definition spoofed_draft : gmap string json :=
  <["author" := JStr "mallory"]> draft.

(** The sample draft with a tag and a null preview image. *)
Definition design_draft : gmap string json :=
  <["tag" := JStr "Design"]> (<["preview_image" := JNull]> draft).

(** The sample draft without its title. *)
Definition untitled_draft : gmap string json :=
  delete "title" draft.

End MoreSamples.
Export MoreSamples.

(** * Properties of the handlers *)

(** Unfolds the operations of the handler monad. *)
Ltac run :=
  unfold bind, ret, raise, try_except, lift, query, session_get, session_set,
    session_item, item, as_int, db_session_add, db_session_commit,
    db_session_rollback in *;
  cbn [fst snd session tables pending ops] in *.

(** ** Reading an article: the pageview gate *)

Module ShowArticleFacts.

#[local] Open Scope handler_scope.

(** The handler in closed form: the counter is stored before the gate is
    tested, and the lookup happens only under the gate. *)
Lemma ShowArticle_get_eq (id : Z) (w : World) :
  let c := page_views_of (session w) + 1 in
  ShowArticle_get id w =
    ( (if c <=? 100 then
         match article_by_id (tables w) id with
         | Some a => Ok (Article_to_dict (tables w) a, 200)
         | None => Raise NoneType_to_dict
         end
       else Ok limit_reached),
      with_session w (<["page_views" := SInt c]> (session w)) ).
Proof.
  unfold ShowArticle_get, page_views_of, limit_reached, with_session,
    bind, session_get, session_set, session_item, as_int, query, ret, raise.
  simpl.
  destruct (session w !! "page_views") as [[|n]|] eqn:E; simpl;
    [ | destruct (n =? 0) eqn:En; simpl; [apply Z.eqb_eq in En; subst n|] | ];
    rewrite lookup_insert_eq; simpl; rewrite lookup_insert_eq; simpl;
    rewrite !insert_insert_eq;
    try (destruct (n + 1 <=? 100)); simpl;
    try (destruct (article_by_id (tables w) id)); reflexivity.
Qed.

Lemma page_views_of_insert (s : gmap string sval) (c : Z) :
  page_views_of (<["page_views" := SInt c]> s) = c.
Proof. unfold page_views_of. now rewrite lookup_insert_eq. Qed.

Lemma page_views_after (id : Z) (w : World) :
  page_views_of (session (ShowArticle_get id w).2) = page_views_of (session w) + 1.
Proof. rewrite ShowArticle_get_eq. simpl. apply page_views_of_insert. Qed.

Lemma tables_after (id : Z) (w : World) :
  tables (ShowArticle_get id w).2 = tables w.
Proof. now rewrite ShowArticle_get_eq. Qed.

(** The counter is session-wide: it advances by one per view whatever the
    article. *)
Lemma page_views_of_views (ids : list Z) (w : World) :
  page_views_of (session (views ids w)) =
  page_views_of (session w) + Z.of_nat (length ids).
Proof.
  revert w. induction ids as [|id ids IH]; intros w.
  - simpl. lia.
  - cbn [views length]. rewrite IH, page_views_after. lia.
Qed.

Lemma tables_views (ids : list Z) (w : World) :
  tables (views ids w) = tables w.
Proof.
  revert w. induction ids as [|id ids IH]; intros w; [reflexivity|].
  cbn [views]. now rewrite IH, tables_after.
Qed.

Lemma ClearSession_delete_eq (w : World) :
  ClearSession_delete w =
    (Ok (JObj [], 204),
     with_session w (<["user_id" := SNone]> (<["page_views" := SNone]> (session w)))).
Proof. reflexivity. Qed.

Lemma page_views_cleared (w : World) :
  page_views_of (session (ClearSession_delete w).2) = 0.
Proof.
  rewrite ClearSession_delete_eq. unfold page_views_of. simpl.
  rewrite lookup_insert_ne by discriminate. now rewrite lookup_insert_eq.
Qed.

(** What holds of the gate.  Every call of [GET /articles/<id>] stores the session's
    view counter incremented by one, an absent or falsy counter counting as
    zero.  A call whose incremented counter exceeds 100 is answered 401 with
    the message "Maximum pageview limit reached"; a call whose incremented
    counter is at most 100 and whose id matches an article is answered 200
    with the serialized article.  In a session that starts without views the
    counter after any sequence of views is their number, so the 101st and
    every later view is refused; after [DELETE /clear] the next view of an
    existing article is answered 200 again. *)
Theorem ShowArticle_pageview_gate (w : World) (id : Z) :
  let c := page_views_of (session w) + 1 in
  (ShowArticle_get id w).2 = with_session w (<["page_views" := SInt c]> (session w))
  /\ (100 < c -> (ShowArticle_get id w).1 = Ok limit_reached)
  /\ (forall a, c <= 100 -> article_by_id (tables w) id = Some a ->
        (ShowArticle_get id w).1 = Ok (Article_to_dict (tables w) a, 200))
  /\ (forall ids, page_views_of (session w) = 0 ->
        page_views_of (session (views ids w)) = Z.of_nat (length ids)
        /\ ((100 <= length ids)%nat ->
              (ShowArticle_get id (views ids w)).1 = Ok limit_reached)
        /\ (forall a, (length ids < 100)%nat -> article_by_id (tables w) id = Some a ->
              (ShowArticle_get id (views ids w)).1 = Ok (Article_to_dict (tables w) a, 200)))
  /\ (forall ids a, article_by_id (tables w) id = Some a ->
        (ShowArticle_get id (ClearSession_delete (views ids w)).2).1
        = Ok (Article_to_dict (tables w) a, 200)).
Proof.
  intros c. subst c. repeat split.
  - now rewrite ShowArticle_get_eq.
  - intros Hc. rewrite ShowArticle_get_eq. simpl.
    destruct (Z.leb_spec (page_views_of (session w) + 1) 100); [lia|reflexivity].
  - intros a Hc Ha. rewrite ShowArticle_get_eq. simpl.
    destruct (Z.leb_spec (page_views_of (session w) + 1) 100); [|lia].
    now rewrite Ha.
  - rewrite page_views_of_views. lia.
  - intros Hn. rewrite ShowArticle_get_eq. simpl.
    rewrite page_views_of_views.
    destruct (Z.leb_spec (page_views_of (session w) + Z.of_nat (length ids) + 1) 100);
      [lia|reflexivity].
  - intros a Hn Ha. rewrite ShowArticle_get_eq. simpl.
    rewrite page_views_of_views, tables_views.
    destruct (Z.leb_spec (page_views_of (session w) + Z.of_nat (length ids) + 1) 100);
      [|lia].
    now rewrite Ha.
  - intros ids a Ha. rewrite ShowArticle_get_eq.
    rewrite page_views_cleared. simpl. now rewrite tables_views, Ha.
Qed.

(** A view of the sample article in a new session, the 101st view of the
    session, and the view that follows a [DELETE /clear]. *)
Lemma ShowArticle_pageview_gate_witness :
  (ShowArticle_get 1 (enter ∅ blog_db)).1 = Ok (Article_to_dict blog_db first_post, 200)
  /\ (ShowArticle_get 1 (enter (<["page_views" := SInt 100]> ∅) blog_db)).1 = Ok limit_reached
  /\ (ShowArticle_get 1
        (ClearSession_delete (views [1] (enter (<["page_views" := SInt 100]> ∅) blog_db))).2).1
     = Ok (Article_to_dict blog_db first_post, 200).
Proof.
  split; [|split].
  - apply (proj1 (proj2 (proj2 (ShowArticle_pageview_gate (enter ∅ blog_db) 1))) first_post).
    + vm_compute. discriminate.
    + reflexivity.
  - apply (proj1 (proj2 (ShowArticle_pageview_gate
                           (enter (<["page_views" := SInt 100]> ∅) blog_db) 1))).
    vm_compute. reflexivity.
  - apply (proj2 (proj2 (proj2 (proj2 (ShowArticle_pageview_gate
             (enter (<["page_views" := SInt 100]> ∅) blog_db) 1)))) [1] first_post).
    reflexivity.
Defined.

(** C1: the code under the open gate at an id that matches no article.  In
    a new session the incremented counter is 1, at most 100, and the call
    raises [AttributeError] out of [article.to_dict()] instead of returning
    the lookup result with status 200; the view that follows a
    [DELETE /clear] raises in the same way. *)
Theorem ShowArticle_gate_open_no_article :
  page_views_of (session (enter ∅ empty_db)) + 1 <= 100
  /\ ShowArticle_get 7 (enter ∅ empty_db)
     = (Raise NoneType_to_dict, enter (<["page_views" := SInt 1]> ∅) empty_db)
  /\ ~ (exists body, (ShowArticle_get 7 (enter ∅ empty_db)).1 = Ok (body, 200))
  /\ (ShowArticle_get 7
        (ClearSession_delete (enter (<["page_views" := SInt 100]> ∅) empty_db)).2).1
     = Raise NoneType_to_dict.
Proof.
  split; [|split; [|split]].
  - vm_compute. discriminate.
  - reflexivity.
  - intros [body Hbody]. vm_compute in Hbody. discriminate.
  - reflexivity.
Qed.

(** C3: the code at an id that matches no article.  With the gate open the
    lookup yields [None] and [article.to_dict()] raises [AttributeError], so
    the request ends in the server's error response and not in a 200 with a
    null body; the counter has been advanced all the same. *)
Theorem ShowArticle_missing_article_raises (w : World) (id : Z) :
  page_views_of (session w) + 1 <= 100 ->
  article_by_id (tables w) id = None ->
  ShowArticle_get id w =
    (Raise NoneType_to_dict,
     with_session w (<["page_views" := SInt (page_views_of (session w) + 1)]> (session w)))
  /\ status_of (ShowArticle_get id w).1 <> Some 200.
Proof.
  intros Hc Ha. rewrite ShowArticle_get_eq. simpl.
  destruct (Z.leb_spec (page_views_of (session w) + 1) 100); [|lia].
  rewrite Ha. split; [reflexivity|discriminate].
Qed.

Lemma ShowArticle_missing_article_raises_witness :
  ShowArticle_get 2 (enter ∅ blog_db) =
    (Raise NoneType_to_dict, enter (<["page_views" := SInt 1]> ∅) blog_db)
  /\ status_of (ShowArticle_get 2 (enter ∅ blog_db)).1 <> Some 200.
Proof.
  assert (H1 : page_views_of (session (enter ∅ blog_db)) + 1 <= 100)
    by (vm_compute; discriminate).
  assert (H2 : article_by_id (tables (enter ∅ blog_db)) 2 = None) by reflexivity.
  exact (ShowArticle_missing_article_raises (enter ∅ blog_db) 2 H1 H2).
Defined.

End ShowArticleFacts.

(** ** Sessions, login and signup *)

Module AuthFacts.

#[local] Open Scope handler_scope.

Section WithRuntime.

Context `{Runtime}.

(** [Login.post] up to the credential check. *)
Lemma Login_post_eq (body : gmap string json) (w : World) :
  Login_post body w =
    match body !! "username" with
    | None => (Raise (KeyError "username"), w)
    | Some u =>
        match body !! "password" with
        | None => (Raise (KeyError "password"), w)
        | Some p =>
            if negb (truthy u) || negb (truthy p)
            then (Ok credentials_required_login, w)
            else
              match user_by_username (tables w) u with
              | None => (Ok Invalid_credentials, w)
              | Some usr =>
                  match check_password_hash (User__password_hash usr) p with
                  | Raise e => (Raise e, w)
                  | Ok false => (Ok Invalid_credentials, w)
                  | Ok true =>
                      (Ok (User_to_dict (tables w) usr, 200),
                       with_session w (<["user_id" := SInt (User_id usr)]> (session w)))
                  end
              end
        end
    end.
Proof.
  unfold Login_post, User_authenticate. run.
  destruct (body !! "username") as [u|]; [|reflexivity].
  destruct (body !! "password") as [p|]; [|reflexivity].
  cbn. destruct (negb (truthy u) || negb (truthy p)); [reflexivity|].
  destruct (user_by_username (tables w) u) as [usr|]; [|reflexivity].
  destruct (check_password_hash (User__password_hash usr) p) as [[|]|e]; reflexivity.
Qed.

(** [SignUp.post] up to the [try] statement. *)
Lemma SignUp_post_eq (body : gmap string json) (w : World) :
  SignUp_post body w =
    match body !! "username" with
    | None => (Raise (KeyError "username"), w)
    | Some u =>
        match body !! "password" with
        | None => (Raise (KeyError "password"), w)
        | Some p =>
            if negb (truthy u) || negb (truthy p)
            then (Ok credentials_required_signup, w)
            else
              match user_by_username (tables w) u with
              | Some _ => (Ok username_exists, w)
              | None => SignUp_guarded u p w
              end
        end
    end.
Proof.
  unfold SignUp_post. run.
  destruct (body !! "username") as [u|]; [|reflexivity].
  destruct (body !! "password") as [p|]; [|reflexivity].
  cbn. destruct (negb (truthy u) || negb (truthy p)); [reflexivity|].
  destruct (user_by_username (tables w) u) as [usr|]; reflexivity.
Qed.

(** Whatever the [try] statement of signup returns, it is not the response
    for missing credentials. *)
Lemma SignUp_guarded_not_required (u p : json) (w : World) :
  (SignUp_guarded u p w).1 <> Ok credentials_required_signup.
Proof.
  unfold SignUp_guarded, SignUp_try, User_set_password_hash. run.
  destruct (generate_password_hash p) as [h|e]; cbn.
  - destruct (flush now (tables w) (pending w ++ [PUser u (JStr h)])) as [[d xs]|e]; cbn.
    + destruct xs as [|[usr|a] [|x xs]]; cbn; discriminate.
    + destruct e; cbn; discriminate.
  - destruct e; cbn; discriminate.
Qed.

(** [CheckSession.get] in closed form. *)
Lemma CheckSession_get_eq (w : World) :
  CheckSession_get w =
    (match user_by_id (tables w) (default SNone (session w !! "user_id")) with
     | Some u => Ok (User_to_dict (tables w) u, 200)
     | None => Ok (JObj [], 401)
     end, w).
Proof.
  unfold CheckSession_get. run.
  destruct (user_by_id (tables w) (default SNone (session w !! "user_id"))); reflexivity.
Qed.


(** Where the verifier returns [False]: a login request with non-empty
    username and password that fails because no user has the username, and
    one that fails because the verifier answers [False] for the stored
    hash, receive the same response, 401 with the body
    [{"Error": "Invalid credentials"}], and neither touches the session or
    the store. *)
Theorem Login_failure_indistinguishable
    (w1 w2 : World) (body1 body2 : gmap string json) (u1 p1 u2 p2 : json) (usr : User) :
  body1 !! "username" = Some u1 -> body1 !! "password" = Some p1 ->
  truthy u1 = true -> truthy p1 = true ->
  body2 !! "username" = Some u2 -> body2 !! "password" = Some p2 ->
  truthy u2 = true -> truthy p2 = true ->
  user_by_username (tables w1) u1 = None ->
  user_by_username (tables w2) u2 = Some usr ->
  check_password_hash (User__password_hash usr) p2 = Ok false ->
  Login_post body1 w1 = (Ok Invalid_credentials, w1)
  /\ Login_post body2 w2 = (Ok Invalid_credentials, w2)
  /\ (Login_post body1 w1).1 = (Login_post body2 w2).1.
Proof.
  intros Hu1 Hp1 Tu1 Tp1 Hu2 Hp2 Tu2 Tp2 Hnone Hsome Hbad.
  assert (E1 : Login_post body1 w1 = (Ok Invalid_credentials, w1)).
  { rewrite Login_post_eq, Hu1, Hp1, Tu1, Tp1. cbn. now rewrite Hnone. }
  assert (E2 : Login_post body2 w2 = (Ok Invalid_credentials, w2)).
  { rewrite Login_post_eq, Hu2, Hp2, Tu2, Tp2. cbn. now rewrite Hsome, Hbad. }
  split; [exact E1|]. split; [exact E2|]. now rewrite E1, E2.
Qed.

(** Where the verifier raises: the username is that of a user, so
    [user.authenticate] runs, and its exception leaves [Login.post], which
    has no [try]; a request with a username of no user is answered 401
    without the verifier being called. *)
Lemma Login_post_verifier_raises
    (w : World) (body : gmap string json) (u p : json) (usr : User) (e : exn) :
  body !! "username" = Some u -> body !! "password" = Some p ->
  truthy u = true -> truthy p = true ->
  (user_by_username (tables w) u = Some usr ->
   check_password_hash (User__password_hash usr) p = Raise e ->
   Login_post body w = (Raise e, w))
  /\ (user_by_username (tables w) u = None ->
      Login_post body w = (Ok Invalid_credentials, w)).
Proof.
  intros Hu Hp Tu Tp. rewrite Login_post_eq, Hu, Hp, Tu, Tp. cbn [negb orb].
  split.
  - intros Husr Hc. now rewrite Husr, Hc.
  - intros Hnone. now rewrite Hnone.
Qed.


(** C9.  In [POST /login] and in [POST /signup] the response for missing
    credentials is returned exactly when the body has both keys and one of
    the two values is falsy.  When the key [username] is absent, or it is
    present and [password] is absent, the handler raises [KeyError] for that
    key and nothing else has run: the world is as before. *)
Theorem credentials_required_needs_both_keys (body : gmap string json) (w : World) :
  ((Login_post body w).1 = Ok credentials_required_login <->
     exists u p, body !! "username" = Some u /\ body !! "password" = Some p /\
                 (truthy u = false \/ truthy p = false))
  /\ ((SignUp_post body w).1 = Ok credentials_required_signup <->
     exists u p, body !! "username" = Some u /\ body !! "password" = Some p /\
                 (truthy u = false \/ truthy p = false))
  /\ (body !! "username" = None ->
      Login_post body w = (Raise (KeyError "username"), w)
      /\ SignUp_post body w = (Raise (KeyError "username"), w))
  /\ (is_Some (body !! "username") -> body !! "password" = None ->
      Login_post body w = (Raise (KeyError "password"), w)
      /\ SignUp_post body w = (Raise (KeyError "password"), w)).
Proof.
  rewrite Login_post_eq, SignUp_post_eq.
  split; [|split; [|split]].
  - split.
    + destruct (body !! "username") as [u|]; [|discriminate].
      destruct (body !! "password") as [p|]; [|discriminate].
      intros Hr. exists u, p. split; [reflexivity|]. split; [reflexivity|].
      destruct (truthy u); [|now left]. destruct (truthy p); [|now right].
      exfalso. cbn in Hr.
      destruct (user_by_username (tables w) u) as [usr|]; [|discriminate].
      destruct (check_password_hash (User__password_hash usr) p) as [[|]|e];
        discriminate.
    + intros (u & p & -> & -> & Hf).
      destruct Hf as [-> | ->]; [reflexivity|].
      now rewrite orb_true_r.
  - split.
    + destruct (body !! "username") as [u|]; [|discriminate].
      destruct (body !! "password") as [p|]; [|discriminate].
      intros Hr. exists u, p. split; [reflexivity|]. split; [reflexivity|].
      destruct (truthy u); [|now left]. destruct (truthy p); [|now right].
      exfalso. cbn in Hr.
      destruct (user_by_username (tables w) u) as [usr|]; [discriminate|].
      now apply SignUp_guarded_not_required in Hr.
    + intros (u & p & -> & -> & Hf).
      destruct Hf as [-> | ->]; [reflexivity|].
      now rewrite orb_true_r.
  - intros ->. now split.
  - intros [u ->] ->. now split.
Qed.

End WithRuntime.

#[local] Existing Instance sample_runtime.

(** C5: the code on a password that the verifier refuses.  The JSON number
    12345 is a non-empty password.  With the username of no user the login
    is answered 401 with the generic body; with the username [alice], whom
    the store knows, the verifier is called, raises on the value, and the
    exception leaves the handler: the two failure causes do not receive the
    same response. *)
Theorem Login_distinguishes_on_verifier_error :
  let known := Login_post (credentials (JStr "alice") (JNum 12345)) (enter ∅ blog_db) in
  let unknown := Login_post (credentials (JStr "nobody") (JNum 12345)) (enter ∅ blog_db) in
  truthy (JNum 12345) = true
  /\ user_by_username blog_db (JStr "alice") = Some alice
  /\ user_by_username blog_db (JStr "nobody") = None
  /\ unknown.1 = Ok Invalid_credentials
  /\ (exists e, known.1 = Raise e)
  /\ status_of known.1 = None
  /\ known.1 <> unknown.1.
Proof.
  cbn zeta. repeat (split; [reflexivity|]).
  split; [now eexists|]. split; [reflexivity|].
  vm_compute. discriminate.
Qed.

(** The sample store knows [alice]: a login as [bob] and a login as [alice]
    with a wrong password are answered alike. *)
Lemma Login_failure_indistinguishable_witness :
  (Login_post (credentials (JStr "bob") (JStr "secret")) (enter ∅ blog_db)).1
  = (Login_post (credentials (JStr "alice") (JStr "looking-glass")) (enter ∅ blog_db)).1.
Proof.
  refine (proj2 (proj2 (@Login_failure_indistinguishable sample_runtime
    (enter ∅ blog_db) (enter ∅ blog_db)
    (credentials (JStr "bob") (JStr "secret"))
    (credentials (JStr "alice") (JStr "looking-glass"))
    (JStr "bob") (JStr "secret") (JStr "alice") (JStr "looking-glass") alice
    _ _ _ _ _ _ _ _ _ _ _))); reflexivity.
Defined.


(** A body without [password] raises [KeyError] in both handlers; a body
    with an empty password is answered 400. *)
Lemma credentials_required_needs_both_keys_witness :
  (Login_post (<["username" := JStr "alice"]> ∅) (enter ∅ blog_db)
   = (Raise (KeyError "password"), enter ∅ blog_db)
   /\ SignUp_post (<["username" := JStr "alice"]> ∅) (enter ∅ blog_db)
      = (Raise (KeyError "password"), enter ∅ blog_db))
  /\ (SignUp_post (credentials (JStr "alice") (JStr EmptyString)) (enter ∅ blog_db)).1
     = Ok credentials_required_signup.
Proof.
  split.
  - apply (proj2 (proj2 (proj2 (@credentials_required_needs_both_keys sample_runtime
             (<["username" := JStr "alice"]> ∅) (enter ∅ blog_db))))).
    + now exists (JStr "alice").
    + reflexivity.
  - apply (proj2 (proj1 (proj2 (@credentials_required_needs_both_keys sample_runtime
             (credentials (JStr "alice") (JStr EmptyString)) (enter ∅ blog_db))))).
    exists (JStr "alice"), (JStr EmptyString).
    split; [reflexivity|]. split; [reflexivity|]. now right.
Defined.

End AuthFacts.

(** ** Signup: uniqueness of usernames *)

Module SignUpFacts.

Import AuthFacts.
#[local] Open Scope handler_scope.

Section WithRuntime.

Context `{Runtime}.

Lemma user_by_username_None_filter (d : Database) (name : json) :
  user_by_username d name = None -> count_username d name = 0%nat.
Proof.
  unfold user_by_username, count_username. intros Hnone.
  induction (users d) as [|u us IH]; [reflexivity|].
  cbn in *. destruct (bool_decide (User_username u = name)); [discriminate|].
  now apply IH.
Qed.

Lemma count_username_with_user (d : Database) (u : User) :
  count_username (with_user d u) (User_username u) =
  S (count_username d (User_username u)).
Proof.
  unfold count_username, with_user. cbn [users].
  rewrite List.filter_app, length_app. cbn.
  rewrite bool_decide_eq_true_2 by reflexivity. cbn. lia.
Qed.

Lemma user_by_username_with_user (d : Database) (u : User) :
  is_Some (user_by_username (with_user d u) (User_username u)).
Proof.
  unfold user_by_username, with_user. cbn [users].
  induction (users d) as [|u' us IH]; cbn.
  - rewrite bool_decide_eq_true_2 by reflexivity. now eexists.
  - destruct (bool_decide (User_username u' = User_username u)); [now eexists|exact IH].
Qed.

(** The insert of a user whose username is free. *)
Lemma flush_new_user (d : Database) (u h : json) :
  user_by_username d u = None ->
  flush now d [PUser u h] =
    Ok (with_user d (new_user d u h), [EUser (new_user d u h)]).
Proof.
  intros Hnone. cbn. rewrite Hnone.
  rewrite (bool_decide_eq_false_2 (is_Some None)) by (intros [? ?]; discriminate).
  now rewrite andb_false_r.
Qed.

(** The insert of a user whose username is taken. *)
Lemma flush_taken_user (d : Database) (u h : json) :
  u <> JNull -> is_Some (user_by_username d u) ->
  flush now d [PUser u h] =
    Raise (IntegrityError "UNIQUE constraint failed: users.username").
Proof.
  intros Hu Hsome. cbn.
  now rewrite (bool_decide_eq_true_2 _ Hu), (bool_decide_eq_true_2 _ Hsome).
Qed.

(** The [try] statement of signup at the start of a request, when the
    username is free and the password hashes. *)
Lemma SignUp_guarded_created (s : gmap string sval) (d : Database) (u p : json) (h : string) :
  generate_password_hash p = Ok h ->
  user_by_username d u = None ->
  let usr := new_user d u (JStr h) in
  SignUp_guarded u p (enter s d) =
    (Ok (User_to_dict (with_user d usr) usr, 201),
     {| session := <["user_id" := SInt (User_id usr)]> s;
        tables := with_user d usr;
        pending := [];
        ops := [OpAdd; OpCommit] |}).
Proof.
  intros Hh Hnone usr.
  unfold SignUp_guarded, SignUp_try, User_set_password_hash, enter. run.
  rewrite Hh. run. cbn [app].
  now rewrite (flush_new_user d u (JStr h) Hnone).
Qed.

(** When hashing raises, nothing was added: a [ValueError] becomes a 400, any
    other exception leaves the handler. *)
Lemma SignUp_guarded_hash_raises (w : World) (u p : json) (e : exn) :
  generate_password_hash p = Raise e ->
  SignUp_guarded u p w =
    (match e with
     | ValueError m => Ok (JObj [("error", JStr m)], 400)
     | _ => Raise e
     end, w).
Proof.
  intros Hh. unfold SignUp_guarded, SignUp_try, User_set_password_hash. run.
  rewrite Hh. run. destruct e; reflexivity.
Qed.

(** When the commit raises an exception that is not a [ValueError], it leaves
    the handler: the tables are as before and no rollback was issued. *)
Lemma SignUp_guarded_commit_raises (w : World) (u p : json) (h : string) (e : exn) :
  generate_password_hash p = Ok h ->
  flush now (tables w) (pending w ++ [PUser u (JStr h)]) = Raise e ->
  (forall m, e <> ValueError m) ->
  SignUp_guarded u p w =
    (Raise e,
     {| session := session w; tables := tables w;
        pending := [];
        ops := ops w ++ [OpAdd; OpCommit] |}).
Proof.
  intros Hh Hf He. unfold SignUp_guarded, SignUp_try, User_set_password_hash. run.
  rewrite Hh. run. rewrite Hf. rewrite <- app_assoc. cbn [app].
  destruct e as [k|m|m|m|m|m]; try reflexivity. now destruct (He m).
Qed.

(** The [try] statement of signup when the username is in [users] after all,
    as when another request inserted it after this handler's check: the
    [IntegrityError] of the commit leaves the handler. *)
Lemma SignUp_guarded_taken (s : gmap string sval) (d : Database) (u p : json) (h : string) :
  generate_password_hash p = Ok h ->
  u <> JNull -> is_Some (user_by_username d u) ->
  SignUp_guarded u p (enter s d) =
    (Raise (IntegrityError "UNIQUE constraint failed: users.username"),
     {| session := s; tables := d; pending := [];
        ops := [OpAdd; OpCommit] |}).
Proof.
  intros Hh Hu Hsome.
  apply (SignUp_guarded_commit_raises (enter s d) u p h _ Hh).
  - cbn [enter tables pending app]. now apply flush_taken_user.
  - intros m. discriminate.
Qed.

(** C6.  A signup whose username is already in [users] is answered 409 and
    leaves the world as it was.  Hence, when a first signup is answered 201
    and a second one carries the same username, the second is answered 409,
    the tables after it are those the first one left, and they hold exactly
    one row with that username. *)
Theorem SignUp_duplicate_rejected
    (s1 s2 : gmap string sval) (d : Database) (body1 body2 : gmap string json)
    (u p1 p2 : json) :
  body1 !! "username" = Some u -> body1 !! "password" = Some p1 ->
  body2 !! "username" = Some u -> body2 !! "password" = Some p2 ->
  truthy u = true -> truthy p2 = true ->
  (forall w, is_Some (user_by_username (tables w) u) ->
     SignUp_post body2 w = (Ok username_exists, w))
  /\ (status_of (SignUp_post body1 (enter s1 d)).1 = Some 201 ->
      let d1 := tables (SignUp_post body1 (enter s1 d)).2 in
      SignUp_post body2 (enter s2 d1) = (Ok username_exists, enter s2 d1)
      /\ count_username d1 u = 1%nat
      /\ count_username (tables (SignUp_post body2 (enter s2 d1)).2) u = 1%nat
      /\ users (tables (SignUp_post body2 (enter s2 d1)).2) = users d1).
Proof.
  intros Hu1 Hp1 Hu2 Hp2 Tu Tp2.
  assert (Hdup : forall w, is_Some (user_by_username (tables w) u) ->
                           SignUp_post body2 w = (Ok username_exists, w)).
  { intros w [usr Husr]. rewrite SignUp_post_eq, Hu2, Hp2, Tu, Tp2. cbn.
    now rewrite Husr. }
  split; [exact Hdup|].
  rewrite SignUp_post_eq, Hu1, Hp1, Tu. cbn [negb orb].
  destruct (truthy p1); cbn [negb]; [|discriminate].
  cbn [tables enter].
  destruct (user_by_username d u) as [usr|] eqn:Hfree; [discriminate|].
  destruct (generate_password_hash p1) as [h|e] eqn:Hh.
  - rewrite (SignUp_guarded_created s1 d u p1 h Hh Hfree). cbn [fst snd tables].
    intros _.
    set (usr := new_user d u (JStr h)).
    assert (Hname : User_username usr = u) by reflexivity.
    assert (Hsome : is_Some (user_by_username (with_user d usr) u)).
    { rewrite <- Hname. apply user_by_username_with_user. }
    assert (Hone : count_username (with_user d usr) u = 1%nat).
    { pose proof (count_username_with_user d usr) as Hc. rewrite Hname in Hc.
      now rewrite Hc, (user_by_username_None_filter d u Hfree). }
    rewrite (Hdup (enter s2 (with_user d usr)) Hsome). cbn [snd tables enter].
    repeat split; assumption || reflexivity.
  - rewrite (SignUp_guarded_hash_raises (enter s1 d) u p1 e Hh). cbn [fst].
    destruct e; discriminate.
Qed.

End WithRuntime.

#[local] Existing Instance sample_runtime.

(** [alice] signs up in an empty store; a second signup as [alice] with
    another password is refused and one row remains. *)
Lemma SignUp_duplicate_rejected_witness :
  let d1 := tables (SignUp_post (credentials (JStr "alice") (JStr "wonderland"))
                      (enter ∅ empty_db)).2 in
  SignUp_post (credentials (JStr "alice") (JStr "looking-glass")) (enter ∅ d1)
  = (Ok username_exists, enter ∅ d1)
  /\ count_username d1 (JStr "alice") = 1%nat.
Proof.
  intros d1.
  destruct (proj2 (@SignUp_duplicate_rejected sample_runtime ∅ ∅ empty_db
                     (credentials (JStr "alice") (JStr "wonderland"))
                     (credentials (JStr "alice") (JStr "looking-glass"))
                     (JStr "alice") (JStr "wonderland") (JStr "looking-glass")
                     eq_refl eq_refl eq_refl eq_refl eq_refl eq_refl) eq_refl)
    as (Hsecond & Hone & _).
  split; [exact Hsecond|exact Hone].
Defined.

End SignUpFacts.

(** ** Creating an article *)

Module ArticleFacts.

#[local] Open Scope handler_scope.

(** *** The dictionary comprehension that drops [None] values *)

Lemma drop_none_nil (k : string) : drop_none [] !! k = None.
Proof. reflexivity. Qed.

Lemma drop_none_cons_ne (k k' : string) (v : json) (items : list (string * json)) :
  k <> k' -> drop_none ((k', v) :: items) !! k = drop_none items !! k.
Proof.
  intros Hne. unfold drop_none. cbn [List.filter snd].
  destruct (bool_decide (v = JNull)); cbn [negb]; [reflexivity|].
  cbn [list_to_map foldr uncurry].
  rewrite lookup_insert_ne; [reflexivity|]. intros E. cbn in E. congruence.
Qed.

Lemma drop_none_cons_null (k k' : string) (items : list (string * json)) :
  drop_none ((k', JNull) :: items) !! k = drop_none items !! k.
Proof. reflexivity. Qed.

Lemma drop_none_cons_eq (k : string) (v : json) (items : list (string * json)) :
  v <> JNull -> drop_none ((k, v) :: items) !! k = Some v.
Proof.
  intros Hv. unfold drop_none. cbn [List.filter snd].
  rewrite (bool_decide_eq_false_2 _ Hv). cbn [negb list_to_map foldr uncurry].
  apply lookup_insert_eq.
Qed.

Ltac skip_items :=
  repeat (rewrite drop_none_cons_ne by discriminate).

Section WithRuntime.

Context `{Runtime}.

(** [CreateArticle.post] up to the [try] statement. *)
Lemma CreateArticle_post_eq (data : gmap string json) (w : World) :
  CreateArticle_post data w =
    let v := default SNone (session w !! "user_id") in
    if negb (sval_truthy v) then (Ok please_log_in, w)
    else
      match user_by_id (tables w) v with
      | None => (Ok user_not_found, w)
      | Some user =>
          if negb (forallb (fun f => bool_decide (is_Some (data !! f))) required_fields)
          then (Ok missing_fields, w)
          else if bool_decide (is_Some (data !! "tag"))
                  && negb (in_allowed_tags (default JNull (data !! "tag")))
          then (Ok invalid_tag, w)
          else CreateArticle_guarded user v data w
      end.
Proof.
  unfold CreateArticle_post. run. cbn zeta.
  destruct (negb (sval_truthy (default SNone (session w !! "user_id")))); [reflexivity|].
  destruct (user_by_id (tables w) (default SNone (session w !! "user_id")));
    [|reflexivity].
  destruct (negb (forallb (fun f => bool_decide (is_Some (data !! f))) required_fields));
    [reflexivity|].
  destruct (bool_decide (is_Some (data !! "tag"))
            && negb (in_allowed_tags (default JNull (data !! "tag")))); reflexivity.
Qed.



Lemma required_fields_present (data : gmap string json) :
  forallb (fun f => bool_decide (is_Some (data !! f))) required_fields = true ->
  exists title content preview_text minutes_to_read,
    data !! "title" = Some title /\ data !! "content" = Some content /\
    data !! "preview_text" = Some preview_text /\
    data !! "minutes_to_read" = Some minutes_to_read.
Proof.
  cbn. rewrite !andb_true_iff, !bool_decide_eq_true.
  intros ([t Ht] & [c Hc] & [p Hp] & [m Hm] & _).
  now exists t, c, p, m.
Qed.


(** When the commit of the article raises [IntegrityError] the handler rolls
    the unit of work back and answers 400 with the message. *)
Lemma CreateArticle_guarded_rollback (w : World) (user : User) (v : sval)
    (data : gmap string json) (t c p m : json) (msg : string) :
  data !! "title" = Some t -> data !! "content" = Some c ->
  data !! "preview_text" = Some p -> data !! "minutes_to_read" = Some m ->
  flush now (tables w)
    (pending w ++ [PArticle (drop_none (article_items user v data t c p m))])
  = Raise (IntegrityError msg) ->
  CreateArticle_guarded user v data w =
    (Ok (JObj [("Error", JStr msg)], 400),
     {| session := session w; tables := tables w; pending := [];
        ops := ops w ++ [OpAdd; OpCommit; OpRollback] |}).
Proof.
  intros Ht Hc Hp Hm Hf. unfold CreateArticle_guarded, CreateArticle_try. run.
  rewrite Ht, Hc, Hp, Hm. run. rewrite Hf. cbn.
  now rewrite <- !app_assoc.
Qed.

Lemma in_allowed_tags_spec (t : json) :
  in_allowed_tags t = true <->
  t = JStr "Product" \/ t = JStr "Engineering" \/ t = JStr "Design".
Proof.
  unfold in_allowed_tags. cbn. rewrite !orb_true_iff, !bool_decide_eq_true.
  intuition discriminate.
Qed.


(** C10.  A request to create an article whose session [user_id] is truthy
    and is the id of no user is answered 404 with the error "User not found"
    and leaves the world as it was; a request whose session [user_id] is
    absent or falsy is answered 401, a different status. *)
Theorem CreateArticle_unknown_user (data : gmap string json) (w : World) (n : Z) :
  session w !! "user_id" = Some (SInt n) -> n <> 0 ->
  user_by_id (tables w) (SInt n) = None ->
  CreateArticle_post data w = (Ok user_not_found, w)
  /\ status_of (CreateArticle_post data w).1 = Some 404
  /\ (forall w', sval_truthy (default SNone (session w' !! "user_id")) = false ->
        CreateArticle_post data w' = (Ok please_log_in, w')
        /\ status_of (CreateArticle_post data w').1 = Some 401).
Proof.
  intros Hs Hn Hnone.
  assert (E : CreateArticle_post data w = (Ok user_not_found, w)).
  { rewrite CreateArticle_post_eq, Hs. cbn [default from_option id]. cbn zeta. rewrite Hnone.
    cbn. destruct (Z.eqb_spec n 0); [contradiction|reflexivity]. }
  split; [exact E|]. split; [now rewrite E|].
  intros w' Hf.
  assert (E' : CreateArticle_post data w' = (Ok please_log_in, w')).
  { rewrite CreateArticle_post_eq. cbn zeta. now rewrite Hf. }
  split; [exact E'|now rewrite E'].
Qed.

End WithRuntime.

#[local] Existing Instance sample_runtime.



(** A session bound to the id 2, which no user has. *)
Lemma CreateArticle_unknown_user_witness :
  CreateArticle_post draft (enter (logged_in 2) blog_db)
  = (Ok user_not_found, enter (logged_in 2) blog_db).
Proof.
  apply (@CreateArticle_unknown_user sample_runtime draft (enter (logged_in 2) blog_db) 2);
    [reflexivity|discriminate|reflexivity].
Defined.

End ArticleFacts.

(** ** What the write paths leave behind and what the responses carry *)

Module WriteFacts.

#[local] Existing Instance sample_runtime.

(** C2: the code on the serialized user.  The getter [User.password_hash]
    raises [AttributeError], but [to_dict] puts the column [_password_hash]
    in the serialized user, so the responses of signup, login and
    check_session all carry the stored hash. *)
Theorem User_to_dict_carries_password_hash :
  (forall d u, obj_field "_password_hash" (User_to_dict d u) = Some (User__password_hash u))
  /\ (forall u, User_password_hash u = Raise (AttributeError "Password hash cannot be viewed"))
  /\ (let r := (SignUp_post (credentials (JStr "alice") (JStr "wonderland"))
                  (enter ∅ empty_db)).1 in
      status_of r = Some 201
      /\ body_of r ≫= obj_field "_password_hash" = Some (JStr "$2b$12$wonderland"))
  /\ (let r := (Login_post (credentials (JStr "alice") (JStr "wonderland"))
                  (enter ∅ blog_db)).1 in
      status_of r = Some 200
      /\ body_of r ≫= obj_field "_password_hash" = Some (JStr "$2b$12$wonderland"))
  /\ (let r := (CheckSession_get (enter (logged_in 1) blog_db)).1 in
      status_of r = Some 200
      /\ body_of r ≫= obj_field "_password_hash" = Some (JStr "$2b$12$wonderland")).
Proof.
  split; [|split; [|split; [|split]]].
  - intros d u. reflexivity.
  - intros u. reflexivity.
  - split; reflexivity.
  - split; reflexivity.
  - split; reflexivity.
Qed.

(** C4: the code of signup when its commit raises the constraint violation.
    Two requests to sign up as [alice] can both pass the check for an
    existing username before either commits.  When the first has committed,
    the [try] statement of the second raises [IntegrityError] at its commit;
    the clause [except ValueError] does not catch it, so it leaves the
    handler, no [rollback] was called and no error response was returned.
    The tables are those the first request left. *)
Theorem SignUp_commit_error_escapes :
  let first := credentials (JStr "alice") (JStr "wonderland") in
  let d1 := tables (SignUp_post first (enter ∅ empty_db)).2 in
  let r := SignUp_guarded (JStr "alice") (JStr "looking-glass") (enter ∅ d1) in
  user_by_username empty_db (JStr "alice") = None
  /\ status_of (SignUp_post first (enter ∅ empty_db)).1 = Some 201
  /\ (exists msg, r.1 = Raise (IntegrityError msg))
  /\ status_of r.1 = None
  /\ ops r.2 = [OpAdd; OpCommit]
  /\ ~ In OpRollback (ops r.2)
  /\ tables r.2 = d1.
Proof.
  cbn zeta. split; [reflexivity|]. split; [reflexivity|].
  split; [now eexists|]. split; [reflexivity|]. split; [reflexivity|].
  split; [|reflexivity].
  vm_compute. intros [E|[E|[]]]; discriminate E.
Qed.

End WriteFacts.

(** ** The store under the handlers *)

Module StoreFacts.

#[local] Open Scope handler_scope.

(** *** Generated keys *)

Lemma next_id_above (ids : list Z) (x : Z) : In x ids -> x < next_id ids.
Proof.
  unfold next_id. induction ids as [|y ids IH]; cbn; [tauto|].
  intros [->|Hin]; [lia|]. specialize (IH Hin). lia.
Qed.

Lemma next_id_fresh (ids : list Z) : ~ In (next_id ids) ids.
Proof. intros Hin. apply next_id_above in Hin. lia. Qed.

Lemma find_app_fresh {A} (f : A -> bool) (l : list A) (x : A) :
  (forall y, In y l -> f y = false) -> f x = true ->
  List.find f (l ++ [x]) = Some x.
Proof.
  intros Hl Hx. induction l as [|y l IH]; cbn.
  - now rewrite Hx.
  - rewrite (Hl y (or_introl eq_refl)). apply IH. intros z Hz. apply Hl. now right.
Qed.

Lemma find_app_old {A} (f : A -> bool) (l : list A) (x y : A) :
  List.find f l = Some y -> List.find f (l ++ [x]) = Some y.
Proof.
  induction l as [|z l IH]; cbn; [discriminate|].
  destruct (f z); [tauto|exact IH].
Qed.

(** A new user is found under its generated id. *)
Lemma user_by_id_new (d : Database) (u h : json) :
  user_by_id (with_user d (new_user d u h)) (SInt (User_id (new_user d u h)))
  = Some (new_user d u h).
Proof.
  unfold user_by_id, with_user. cbn [users].
  apply find_app_fresh.
  - intros y Hy. apply Z.eqb_neq. intros E.
    apply (next_id_fresh (List.map User_id (users d))).
    cbn [new_user User_id] in E. rewrite <- E. now apply List.in_map.
  - apply Z.eqb_refl.
Qed.

(** A new user is found under its username when the username was free. *)
Lemma user_by_username_new (d : Database) (u h : json) :
  user_by_username d u = None ->
  user_by_username (with_user d (new_user d u h)) u = Some (new_user d u h).
Proof.
  unfold user_by_username, with_user. cbn [users]. intros Hnone.
  apply find_app_fresh.
  - intros y Hy. exact (List.find_none _ _ Hnone y Hy).
  - cbn. now apply bool_decide_eq_true.
Qed.

Lemma user_by_id_with_user (d : Database) (usr u : User) (v : sval) :
  user_by_id d v = Some u -> user_by_id (with_user d usr) v = Some u.
Proof.
  unfold user_by_id, with_user. cbn [users]. destruct v as [|n]; [discriminate|].
  apply find_app_old.
Qed.

(** A new article is found under its generated id. *)
Lemma article_by_id_new (d : Database) (a : Article) :
  Article_id a = next_id (List.map Article_id (articles d)) ->
  article_by_id (with_article d a) (Article_id a) = Some a.
Proof.
  intros Hid. unfold article_by_id, with_article. cbn [articles].
  apply find_app_fresh.
  - intros y Hy. apply Z.eqb_neq. intros E.
    apply (next_id_fresh (List.map Article_id (articles d))).
    rewrite <- Hid, <- E. now apply List.in_map.
  - apply Z.eqb_refl.
Qed.

Lemma username_free_not_in (d : Database) (u : json) :
  user_by_username d u = None -> ~ In u (List.map User_username (users d)).
Proof.
  unfold user_by_username. intros Hnone Hin.
  apply List.in_map_iff in Hin as (y & Hy & Hin).
  pose proof (List.find_none _ _ Hnone y Hin) as Hf. cbn in Hf.
  apply bool_decide_eq_false in Hf. contradiction.
Qed.

(** *** The constraints are kept by the two inserts *)

Lemma NoDup_snoc {A} (l : list A) (x : A) : NoDup l -> ~ In x l -> NoDup (l ++ [x]).
Proof.
  intros Hl Hx. apply NoDup_app. split; [exact Hl|]. split.
  - intros y Hy Hy'. apply list_elem_of_singleton in Hy'. subst y.
    apply Hx. now apply list_elem_of_In.
  - apply NoDup_singleton.
Qed.

Lemma has_author_with_user (d : Database) (usr : User) (a : Article) :
  has_author d a -> has_author (with_user d usr) a.
Proof.
  unfold has_author. destruct (Article_user_id a); try tauto.
  intros [u Hu]. exists u. now apply user_by_id_with_user.
Qed.

Lemma store_ok_with_user (d : Database) (u h : json) :
  store_ok d -> user_by_username d u = None ->
  store_ok (with_user d (new_user d u h)).
Proof.
  intros (Hid & Hname & Haid & Hart) Hfree. unfold store_ok, with_user.
  cbn [users articles]. rewrite !List.map_app. cbn [List.map]. repeat split.
  - apply NoDup_snoc; [exact Hid|]. apply next_id_fresh.
  - apply NoDup_snoc; [exact Hname|]. now apply username_free_not_in.
  - exact Haid.
  - eapply Forall_impl; [exact Hart|]. intros a [Ht Ha]. split; [exact Ht|].
    now apply (has_author_with_user d (new_user d u h)).
Qed.

Lemma store_ok_with_article (d : Database) (a : Article) :
  store_ok d ->
  Article_id a = next_id (List.map Article_id (articles d)) ->
  is_tag (Article_tag a) = true -> has_author d a ->
  store_ok (with_article d a).
Proof.
  intros (Hid & Hname & Haid & Hart) Ha Htag Hauth. unfold store_ok, with_article.
  cbn [users articles]. rewrite !List.map_app. cbn [List.map]. repeat split.
  - exact Hid.
  - exact Hname.
  - apply NoDup_snoc; [exact Haid|]. rewrite Ha. apply next_id_fresh.
  - apply Forall_app. split; [exact Hart|]. apply Forall_singleton. now split.
Qed.

End StoreFacts.

(** ** Article creation in full *)

Module CreateFacts.

Import ArticleFacts.
#[local] Open Scope handler_scope.

Ltac column_of v :=
  unfold column; skip_items;
  destruct (decide (v = JNull)) as [-> | ?];
  [ rewrite drop_none_cons_null; skip_items; rewrite drop_none_nil
  | rewrite drop_none_cons_eq by assumption ];
  cbn [default from_option id].

Lemma in_allowed_tags_is_tag (v : json) :
  in_allowed_tags v = true -> is_tag v = true /\ v <> JNull.
Proof.
  intros Hv. apply in_allowed_tags_spec in Hv.
  destruct Hv as [-> | [-> | ->]]; split; (reflexivity || discriminate).
Qed.

Section WithRuntime.

Context `{Runtime}.

(** The row that the flush builds from the filtered keyword arguments. *)
Lemma new_article_created (d : Database) (user : User) (n : Z)
    (data : gmap string json) (t c p m : json) :
  data !! "title" = Some t -> data !! "content" = Some c ->
  data !! "preview_text" = Some p -> data !! "minutes_to_read" = Some m ->
  new_article d now (drop_none (article_items user (SInt n) data t c p m))
  = created_article d user n data.
Proof.
  intros Ht Hc Hp Hm. unfold new_article, created_article, article_items.
  rewrite Ht, Hc, Hp, Hm. cbn [default from_option id sval_json].
  f_equal.
  - column_of (User_username user); reflexivity.
  - column_of t; reflexivity.
  - column_of c; reflexivity.
  - column_of p; reflexivity.
  - unfold or_column_default. destruct (data !! "preview_image") as [v|];
      cbn [default from_option id].
    + column_of v; [reflexivity|]. now rewrite bool_decide_eq_false_2.
    + unfold column. skip_items. now rewrite drop_none_cons_null, drop_none_nil.
  - column_of m; reflexivity.
  - unfold or_column_default. destruct (data !! "tag") as [v|];
      cbn [default from_option id].
    + column_of v; [reflexivity|]. now rewrite bool_decide_eq_false_2.
    + unfold column. skip_items. rewrite drop_none_cons_null. skip_items.
      now rewrite drop_none_nil.
  - unfold column. skip_items. now rewrite drop_none_cons_eq.
Qed.

Lemma accepted_tag (data : gmap string json) :
  accepted data = true ->
  is_tag (or_column_default (data !! "tag") (JStr "Engineering")) = true.
Proof.
  unfold accepted, or_column_default. rewrite andb_true_iff, negb_true_iff.
  intros [_ Htag]. destruct (data !! "tag") as [v|]; [|reflexivity].
  rewrite bool_decide_eq_true_2 in Htag by now eexists.
  cbn in Htag. apply negb_false_iff in Htag.
  destruct (in_allowed_tags_is_tag v Htag) as [Hv Hnn].
  now rewrite bool_decide_eq_false_2.
Qed.

(** The [try] statement of an accepted request at the start of a request:
    the commit succeeds and adds the row [created_article]. *)
Lemma CreateArticle_guarded_ok (s : gmap string sval) (d : Database)
    (user : User) (n : Z) (data : gmap string json) :
  accepted data = true ->
  user_by_id d (SInt n) = Some user ->
  let a := created_article d user n data in
  CreateArticle_guarded user (SInt n) data (enter s d) =
    (Ok (Article_to_dict (with_article d a) a, 201),
     {| session := s; tables := with_article d a; pending := [];
        ops := [OpAdd; OpCommit] |}).
Proof.
  intros Hacc Huser a.
  pose proof (accepted_tag data Hacc) as Htag.
  unfold accepted in Hacc. apply andb_true_iff in Hacc as [Hreq _].
  destruct (required_fields_present data Hreq) as (t & c & p & m & Ht & Hc & Hp & Hm).
  unfold CreateArticle_guarded, CreateArticle_try, enter. run.
  rewrite Ht, Hc, Hp, Hm. run. cbn [app flush insert_row].
  rewrite (new_article_created d user n data t c p m Ht Hc Hp Hm). fold a.
  assert (Hnn : Article_tag a <> JNull).
  { intros E. subst a. cbn [created_article Article_tag] in E.
    rewrite E in Htag. discriminate. }
  rewrite (bool_decide_eq_false_2 _ Hnn).
  subst a. cbn [created_article Article_tag Article_user_id].
  rewrite Htag. cbn [negb]. rewrite Huser.
  rewrite bool_decide_eq_true_2 by now eexists.
  reflexivity.
Qed.

(** [CreateArticle.post] at the start of a request, in closed form. *)
Lemma CreateArticle_post_enter (s : gmap string sval) (d : Database)
    (data : gmap string json) :
  CreateArticle_post data (enter s d) =
    match default SNone (s !! "user_id") with
    | SNone => (Ok please_log_in, enter s d)
    | SInt n =>
        if n =? 0 then (Ok please_log_in, enter s d)
        else
          match user_by_id d (SInt n) with
          | None => (Ok user_not_found, enter s d)
          | Some user =>
              if accepted data then
                let a := created_article d user n data in
                (Ok (Article_to_dict (with_article d a) a, 201),
                 {| session := s; tables := with_article d a; pending := [];
                    ops := [OpAdd; OpCommit] |})
              else if forallb (fun f => bool_decide (is_Some (data !! f))) required_fields
              then (Ok invalid_tag, enter s d)
              else (Ok missing_fields, enter s d)
          end
    end.
Proof.
  rewrite CreateArticle_post_eq. cbn [session tables enter]. cbn zeta.
  destruct (default SNone (s !! "user_id")) as [|n] eqn:Hs; [reflexivity|].
  cbn [sval_truthy]. destruct (n =? 0); cbn [negb]; [reflexivity|].
  destruct (user_by_id d (SInt n)) as [user|] eqn:Huser; [|reflexivity].
  destruct (accepted data) eqn:Hacc.
  - rewrite (CreateArticle_guarded_ok s d user n data Hacc Huser).
    unfold accepted in Hacc. apply andb_true_iff in Hacc as [-> Hneg].
    apply negb_true_iff in Hneg. rewrite Hneg. reflexivity.
  - unfold accepted in Hacc.
    destruct (forallb (fun f => bool_decide (is_Some (data !! f))) required_fields);
      cbn [negb andb] in *; [|reflexivity].
    apply negb_false_iff in Hacc. now rewrite Hacc.
Qed.

(** What a request answered 201 has gone through. *)
Lemma CreateArticle_post_created (s : gmap string sval) (d : Database)
    (data : gmap string json) :
  status_of (CreateArticle_post data (enter s d)).1 = Some 201 ->
  exists user n,
    s !! "user_id" = Some (SInt n) /\ n <> 0
    /\ user_by_id d (SInt n) = Some user
    /\ accepted data = true
    /\ CreateArticle_post data (enter s d) =
         (Ok (Article_to_dict (with_article d (created_article d user n data))
                (created_article d user n data), 201),
          {| session := s; tables := with_article d (created_article d user n data);
             pending := []; ops := [OpAdd; OpCommit] |}).
Proof.
  rewrite CreateArticle_post_enter.
  destruct (s !! "user_id") as [[|n]|] eqn:Hs; cbn [default from_option id];
    try discriminate.
  destruct (Z.eqb_spec n 0); [discriminate|].
  destruct (user_by_id d (SInt n)) as [user|] eqn:Huser; [|discriminate].
  destruct (accepted data) eqn:Hacc.
  - intros _. exists user, n. repeat split; auto.
  - destruct (forallb _ required_fields); discriminate.
Qed.

(** X1.  [POST /articles/create] at the start of a request is all or
    nothing: when it is answered 201 one row was appended to [articles],
    nothing stays pending and the session is as before; in every other case,
    a raise included, tables and session are as before.  For a body whose
    values are of the columns' types it does not raise: it is answered 201,
    400, 401 or 404. *)
Theorem CreateArticle_all_or_nothing (s : gmap string sval) (d : Database)
    (data : gmap string json) :
  let r := CreateArticle_post data (enter s d) in
  (status_of r.1 = Some 201 ->
   (exists a, tables r.2 = with_article d a)
   /\ session r.2 = s /\ pending r.2 = [] /\ ops r.2 = [OpAdd; OpCommit])
  /\ (status_of r.1 <> Some 201 -> tables r.2 = d /\ session r.2 = s)
  /\ (column_typed data = true ->
      status_of r.1 = Some 201 \/ status_of r.1 = Some 400
      \/ status_of r.1 = Some 401 \/ status_of r.1 = Some 404).
Proof.
  cbn zeta. rewrite CreateArticle_post_enter.
  destruct (default SNone (s !! "user_id")) as [|n].
  { split; [discriminate|]. split; [now split|]. intros _. right. right. now left. }
  destruct (n =? 0).
  { split; [discriminate|]. split; [now split|]. intros _. right. right. now left. }
  destruct (user_by_id d (SInt n)) as [user|].
  2: { split; [discriminate|]. split; [now split|]. intros _. now repeat right. }
  destruct (accepted data).
  - split; [|split].
    + intros _. cbn. repeat split. now eexists.
    + intros Hne. now destruct Hne.
    + intros _. now left.
  - destruct (forallb _ required_fields);
      (split; [discriminate|]; split; [now split|]; intros _; right; now left).
Qed.

(** X2.  The owner of a created article comes from the session and not from
    the body: when the request is answered 201 the appended row has the
    username of the session's user as author, the session's [user_id] as
    [user_id], the store's clock as date and a key that no earlier article
    has, and the response body is the serialization of that row. *)
Theorem CreateArticle_owner_from_session (s : gmap string sval) (d : Database)
    (data : gmap string json) :
  let r := CreateArticle_post data (enter s d) in
  status_of r.1 = Some 201 ->
  exists (user : User) (n : Z) (a : Article),
    s !! "user_id" = Some (SInt n)
    /\ user_by_id d (SInt n) = Some user
    /\ articles (tables r.2) = (articles d ++ [a])%list
    /\ users (tables r.2) = users d
    /\ Article_author a = User_username user
    /\ Article_user_id a = JNum n
    /\ Article_date a = now
    /\ ~ In (Article_id a) (List.map Article_id (articles d))
    /\ body_of r.1 = Some (Article_to_dict (tables r.2) a).
Proof.
  intros r Hst. subst r.
  destruct (CreateArticle_post_created s d data Hst)
    as (user & n & Hs & Hn & Huser & Hacc & ->).
  exists user, n, (created_article d user n data). cbn.
  repeat split; auto. apply StoreFacts.next_id_fresh.
Qed.

(** X3.  What a created article stores of a body whose values are of the
    columns' types: the four required fields as they were sent, a null
    included; the tag that was sent, or Engineering when the key is absent;
    the preview image that was sent, or the placeholder when the key is
    absent or null. *)
Theorem CreateArticle_stores_fields (s : gmap string sval) (d : Database)
    (data : gmap string json) :
  let r := CreateArticle_post data (enter s d) in
  status_of r.1 = Some 201 ->
  column_typed data = true ->
  exists a : Article,
    articles (tables r.2) = (articles d ++ [a])%list
    /\ data !! "title" = Some (Article_title a)
    /\ data !! "content" = Some (Article_content a)
    /\ data !! "preview_text" = Some (Article_preview_text a)
    /\ data !! "minutes_to_read" = Some (Article_minutes_to_read a)
    /\ (forall v, data !! "tag" = Some v ->
          Article_tag a = v
          /\ (v = JStr "Product" \/ v = JStr "Engineering" \/ v = JStr "Design"))
    /\ (data !! "tag" = None -> Article_tag a = JStr "Engineering")
    /\ (forall v, data !! "preview_image" = Some v -> v <> JNull ->
          Article_preview_image a = v)
    /\ (data !! "preview_image" = None \/ data !! "preview_image" = Some JNull ->
          Article_preview_image a = JStr DEFAULT_PREVIEW_IMAGE).
Proof.
  intros r Hst _. subst r.
  destruct (CreateArticle_post_created s d data Hst)
    as (user & n & Hs & Hn & Huser & Hacc & ->).
  exists (created_article d user n data). cbn [fst snd tables with_article articles].
  pose proof Hacc as Hacc'. unfold accepted in Hacc'.
  apply andb_true_iff in Hacc' as [Hreq Htag].
  destruct (required_fields_present data Hreq) as (t & c & p & m & Ht & Hc & Hp & Hm).
  cbn [created_article Article_title Article_content Article_preview_text
       Article_minutes_to_read Article_tag Article_preview_image].
  rewrite Ht, Hc, Hp, Hm. cbn [default from_option id].
  do 5 (split; [reflexivity|]).
  split; [|split; [|split]].
  - intros v Hv. rewrite Hv in Htag.
    rewrite bool_decide_eq_true_2 in Htag by now eexists.
    cbn [andb default from_option id] in Htag.
    apply negb_true_iff, negb_false_iff in Htag.
    destruct (in_allowed_tags_is_tag v Htag) as [_ Hnn].
    rewrite Hv. unfold or_column_default. rewrite bool_decide_eq_false_2 by exact Hnn.
    split; [reflexivity|]. now apply in_allowed_tags_spec.
  - intros ->. reflexivity.
  - intros v -> Hv. unfold or_column_default. now rewrite bool_decide_eq_false_2.
  - intros [-> | ->]; reflexivity.
Qed.

(** X4.  The required fields are tested first and by key only: when the
    session's user exists and one of the four keys is absent the answer is
    400 with the list of required fields, whatever the tag, and the world is
    as before. *)
Theorem CreateArticle_missing_field (data : gmap string json) (w : World)
    (user : User) (f : string) :
  sval_truthy (default SNone (session w !! "user_id")) = true ->
  user_by_id (tables w) (default SNone (session w !! "user_id")) = Some user ->
  In f required_fields -> data !! f = None ->
  CreateArticle_post data w = (Ok missing_fields, w).
Proof.
  intros Hs Huser Hf Hnone. rewrite CreateArticle_post_eq. cbn zeta.
  rewrite Hs, Huser. cbn [negb].
  assert (Hall : forallb (fun f => bool_decide (is_Some (data !! f))) required_fields = false).
  { apply not_true_is_false. intros Hall.
    pose proof (proj1 (forallb_forall _ _) Hall f Hf) as Hb.
    apply bool_decide_eq_true in Hb. rewrite Hnone in Hb. now destruct Hb. }
  now rewrite Hall.
Qed.

(** X5.  A created article can be read back: after a request answered 201,
    [GET /articles/<id>] for the new key, in any session whose gate is open,
    is answered 200 with the body that the creation returned. *)
Theorem create_then_show (s s' : gmap string sval) (d : Database)
    (data : gmap string json) :
  let r := CreateArticle_post data (enter s d) in
  status_of r.1 = Some 201 ->
  page_views_of s' + 1 <= 100 ->
  exists (a : Article) (body : json),
    articles (tables r.2) = (articles d ++ [a])%list
    /\ r.1 = Ok (body, 201)
    /\ (ShowArticle_get (Article_id a) (enter s' (tables r.2))).1 = Ok (body, 200).
Proof.
  intros r Hst Hgate. subst r.
  destruct (CreateArticle_post_created s d data Hst)
    as (user & n & Hs & Hn & Huser & Hacc & ->).
  set (a := created_article d user n data).
  exists a, (Article_to_dict (with_article d a) a). cbn [fst snd tables].
  repeat split.
  rewrite ShowArticleFacts.ShowArticle_get_eq. cbn [fst session tables enter].
  destruct (Z.leb_spec (page_views_of s' + 1) 100); [|lia].
  now rewrite (StoreFacts.article_by_id_new d a eq_refl).
Qed.

(** [GetArticle.get] in closed form. *)
Lemma GetArticle_get_eq (w : World) :
  GetArticle_get w =
    (match default SNone (session w !! "user_id") with
     | SInt n =>
         if n =? 0 then Ok (JObj [("Error", JStr "Unauthorized")], 401)
         else Ok (JArr (List.map (Article_to_dict (tables w)) (articles_of (tables w) n)),
                  200)
     | SNone => Ok (JObj [("Error", JStr "Unauthorized")], 401)
     end, w).
Proof.
  unfold GetArticle_get. run.
  destruct (default SNone (session w !! "user_id")) as [|n]; [reflexivity|].
  cbn [sval_truthy]. destruct (n =? 0); reflexivity.
Qed.

Lemma articles_of_with_article (d : Database) (a : Article) (n : Z) :
  articles_of (with_article d a) n =
  (articles_of d n ++ (if bool_decide (Article_user_id a = JNum n) then [a] else []))%list.
Proof.
  unfold articles_of, with_article. cbn [articles].
  rewrite List.filter_app. cbn. now destruct (bool_decide (Article_user_id a = JNum n)).
Qed.

(** X6.  A created article shows up in the listings: after a request
    answered 201 the list of [GET /articles] is the list before followed by
    the returned body, and so is the list of [GET /my-articles] in the
    author's session; the list of [GET /my-articles] of any other user is
    as before. *)
Theorem create_then_listed (s : gmap string sval) (d : Database)
    (data : gmap string json) :
  let r := CreateArticle_post data (enter s d) in
  status_of r.1 = Some 201 ->
  exists (body : json) (n : Z),
    r.1 = Ok (body, 201)
    /\ s !! "user_id" = Some (SInt n)
    /\ (forall s',
          listing (IndexArticle_get (enter s' (tables r.2))).1
          = (listing (IndexArticle_get (enter s' d)).1 ++ [body])%list)
    /\ listing (GetArticle_get (enter s (tables r.2))).1
       = (listing (GetArticle_get (enter s d)).1 ++ [body])%list
    /\ (forall s' m, s' !! "user_id" = Some (SInt m) -> m <> n ->
          (GetArticle_get (enter s' (tables r.2))).1 = (GetArticle_get (enter s' d)).1).
Proof.
  intros r Hst. subst r.
  destruct (CreateArticle_post_created s d data Hst)
    as (user & n & Hs & Hn & Huser & Hacc & ->).
  set (a := created_article d user n data).
  exists (Article_to_dict (with_article d a) a), n. cbn [fst snd tables].
  split; [reflexivity|]. split; [exact Hs|]. split; [|split].
  - intros s'. unfold IndexArticle_get. run. cbn [enter tables listing with_article articles].
    now rewrite List.map_app.
  - rewrite !GetArticle_get_eq. cbn [enter session tables fst]. rewrite Hs.
    cbn [default from_option id].
    destruct (Z.eqb_spec n 0); [contradiction|].
    rewrite articles_of_with_article.
    rewrite bool_decide_eq_true_2 by reflexivity.
    cbn [listing]. now rewrite List.map_app.
  - intros s' m Hm Hne. rewrite !GetArticle_get_eq. cbn [enter session tables fst].
    rewrite Hm. cbn [default from_option id].
    destruct (m =? 0); [reflexivity|].
    rewrite articles_of_with_article.
    rewrite bool_decide_eq_false_2 by (cbn; congruence).
    now rewrite app_nil_r.
Qed.

End WithRuntime.

#[local] Existing Instance sample_runtime.

(** The sample draft, whose values are of the columns' types, is answered
    one of the four statuses. *)
Lemma CreateArticle_all_or_nothing_witness :
  let r := CreateArticle_post draft (enter (logged_in 1) blog_db) in
  status_of r.1 = Some 201 \/ status_of r.1 = Some 400
  \/ status_of r.1 = Some 401 \/ status_of r.1 = Some 404.
Proof.
  apply (proj2 (proj2 (@CreateArticle_all_or_nothing sample_runtime
                         (logged_in 1) blog_db draft))).
  reflexivity.
Defined.

(** [alice] posts the sample draft with an author of her choosing in the
    body: the stored author is [alice]. *)
Lemma CreateArticle_owner_from_session_witness :
  exists a : Article,
    articles (tables (CreateArticle_post spoofed_draft
                        (enter (logged_in 1) blog_db)).2) = [first_post; a]
    /\ Article_author a = JStr "alice".
Proof.
  destruct (@CreateArticle_owner_from_session sample_runtime (logged_in 1) blog_db
              spoofed_draft ltac:(vm_compute; reflexivity))
    as (user & n & a & Hs & Hu & Ha & _ & Hauth & _).
  exists a. split; [exact Ha|].
  vm_compute in Hs. injection Hs as <-.
  vm_compute in Hu. injection Hu as <-. exact Hauth.
Defined.

(** The sample draft with the tag Design and a null preview image. *)
Lemma CreateArticle_stores_fields_witness :
  exists a : Article,
    articles (tables (CreateArticle_post
                        design_draft
                        (enter (logged_in 1) blog_db)).2) = [first_post; a]
    /\ Article_tag a = JStr "Design"
    /\ Article_preview_image a = JStr DEFAULT_PREVIEW_IMAGE.
Proof.
  destruct (@CreateArticle_stores_fields sample_runtime (logged_in 1) blog_db
              design_draft
              ltac:(vm_compute; reflexivity) ltac:(vm_compute; reflexivity))
    as (a & Ha & _ & _ & _ & _ & Htag & _ & _ & Himg).
  exists a. split; [exact Ha|]. split.
  - exact (proj1 (Htag (JStr "Design") eq_refl)).
  - apply Himg. now right.
Defined.

(** The sample draft without its title. *)
Lemma CreateArticle_missing_field_witness :
  CreateArticle_post untitled_draft (enter (logged_in 1) blog_db)
  = (Ok missing_fields, enter (logged_in 1) blog_db).
Proof.
  apply (@CreateArticle_missing_field sample_runtime untitled_draft
           (enter (logged_in 1) blog_db) alice "title");
    [reflexivity|reflexivity|now left|reflexivity].
Defined.

(** [alice] posts the sample draft and a visitor reads it. *)
Lemma create_then_show_witness :
  exists (a : Article) (body : json),
    articles (tables (CreateArticle_post draft (enter (logged_in 1) blog_db)).2)
    = [first_post; a]
    /\ (CreateArticle_post draft (enter (logged_in 1) blog_db)).1 = Ok (body, 201)
    /\ (ShowArticle_get (Article_id a)
          (enter ∅ (tables (CreateArticle_post draft (enter (logged_in 1) blog_db)).2))).1
       = Ok (body, 200).
Proof.
  apply (@create_then_show sample_runtime (logged_in 1) ∅ blog_db draft
           ltac:(vm_compute; reflexivity)).
  vm_compute. discriminate.
Defined.

(** [alice] posts the sample draft: both listings grow by its body. *)
Lemma create_then_listed_witness :
  exists body : json,
    (CreateArticle_post draft (enter (logged_in 1) blog_db)).1 = Ok (body, 201)
    /\ listing (GetArticle_get
                  (enter (logged_in 1)
                     (tables (CreateArticle_post draft (enter (logged_in 1) blog_db)).2))).1
       = [Article_to_dict blog_db first_post; body].
Proof.
  destruct (@create_then_listed sample_runtime (logged_in 1) blog_db draft
              ltac:(vm_compute; reflexivity))
    as (body & n & Hb & _ & _ & Hmine & _).
  exists body. split; [exact Hb|exact Hmine].
Defined.

End CreateFacts.

(** ** Accounts and sessions *)

Module AccountFacts.

Import AuthFacts SignUpFacts.
#[local] Open Scope handler_scope.

Lemma find_NoDup_key {A} (f : A -> Z) (l : list A) (x : A) :
  NoDup (List.map f l) -> In x l ->
  List.find (fun y => f y =? f x) l = Some x.
Proof.
  induction l as [|y l IH]; cbn; [tauto|].
  intros Hnd Hin. apply NoDup_cons in Hnd as [Hy Hnd].
  destruct Hin as [->|Hin]; [now rewrite Z.eqb_refl|].
  destruct (Z.eqb_spec (f y) (f x)) as [E|_]; [|now apply IH].
  exfalso. apply Hy. rewrite E. apply list_elem_of_In. now apply List.in_map.
Qed.

Section WithRuntime.

Context `{Runtime}.

(** [SignUp.post] at the start of a request, in closed form. *)
Lemma SignUp_post_enter (s : gmap string sval) (d : Database) (body : gmap string json) :
  SignUp_post body (enter s d) =
    match body !! "username" with
    | None => (Raise (KeyError "username"), enter s d)
    | Some u =>
        match body !! "password" with
        | None => (Raise (KeyError "password"), enter s d)
        | Some p =>
            if negb (truthy u) || negb (truthy p)
            then (Ok credentials_required_signup, enter s d)
            else
              match user_by_username d u with
              | Some _ => (Ok username_exists, enter s d)
              | None =>
                  match generate_password_hash p with
                  | Ok h =>
                      let usr := new_user d u (JStr h) in
                      (Ok (User_to_dict (with_user d usr) usr, 201),
                       {| session := <["user_id" := SInt (User_id usr)]> s;
                          tables := with_user d usr;
                          pending := [];
                          ops := [OpAdd; OpCommit] |})
                  | Raise (ValueError m) =>
                      (Ok (JObj [("error", JStr m)], 400), enter s d)
                  | Raise e => (Raise e, enter s d)
                  end
              end
        end
    end.
Proof.
  rewrite SignUp_post_eq. cbn [tables enter].
  destruct (body !! "username") as [u|]; [|reflexivity].
  destruct (body !! "password") as [p|]; [|reflexivity].
  destruct (negb (truthy u) || negb (truthy p)); [reflexivity|].
  destruct (user_by_username d u) eqn:Hfree; [reflexivity|].
  destruct (generate_password_hash p) as [h|e] eqn:Hh.
  - now rewrite (SignUp_guarded_created s d u p h Hh Hfree).
  - rewrite (SignUp_guarded_hash_raises (enter s d) u p e Hh). now destruct e.
Qed.

(** What a signup answered 201 has gone through. *)
Lemma SignUp_post_created (s : gmap string sval) (d : Database) (body : gmap string json) :
  status_of (SignUp_post body (enter s d)).1 = Some 201 ->
  exists u p h,
    body !! "username" = Some u /\ body !! "password" = Some p
    /\ truthy u = true /\ truthy p = true
    /\ user_by_username d u = None
    /\ generate_password_hash p = Ok h
    /\ SignUp_post body (enter s d) =
         (Ok (User_to_dict (with_user d (new_user d u (JStr h))) (new_user d u (JStr h)),
              201),
          {| session := <["user_id" := SInt (User_id (new_user d u (JStr h)))]> s;
             tables := with_user d (new_user d u (JStr h));
             pending := [];
             ops := [OpAdd; OpCommit] |}).
Proof.
  rewrite SignUp_post_enter.
  destruct (body !! "username") as [u|]; [|discriminate].
  destruct (body !! "password") as [p|]; [|discriminate].
  destruct (truthy u) eqn:Tu; [|discriminate].
  destruct (truthy p) eqn:Tp; [|discriminate]. cbn [negb orb].
  destruct (user_by_username d u) eqn:Hfree; [discriminate|].
  destruct (generate_password_hash p) as [h|e] eqn:Hh.
  - intros _. exists u, p, h. now repeat split.
  - destruct e; discriminate.
Qed.

(** X7.  [POST /signup] at the start of a request is all or nothing: either
    it is answered 201, one row with the hash of the password, the
    placeholder avatar and a new key is appended to [users], with the
    requested username when that is a string, [articles] is as before and
    the session is bound to the new key; or session and store are as
    before, whether the handler returns or raises. *)
Theorem SignUp_all_or_nothing (s : gmap string sval) (d : Database)
    (body : gmap string json) :
  let r := SignUp_post body (enter s d) in
  (status_of r.1 = Some 201
   /\ exists (usr : User) (h : string),
        users (tables r.2) = (users d ++ [usr])%list
        /\ articles (tables r.2) = articles d
        /\ (forall name, body !! "username" = Some (JStr name) ->
              User_username usr = JStr name)
        /\ (exists p, body !! "password" = Some p /\ generate_password_hash p = Ok h)
        /\ User__password_hash usr = JStr h
        /\ User_avatar usr = JStr DEFAULT_AVATAR
        /\ ~ In (User_id usr) (List.map User_id (users d))
        /\ session r.2 = <["user_id" := SInt (User_id usr)]> s
        /\ pending r.2 = [])
  \/ (status_of r.1 <> Some 201 /\ r.2 = enter s d).
Proof.
  cbn zeta.
  destruct (status_of (SignUp_post body (enter s d)).1) as [st|] eqn:Hst.
  - destruct (decide (st = 201)) as [->|Hne].
    + left. split; [reflexivity|].
      destruct (SignUp_post_created s d body Hst)
        as (u & p & h & Hu & Hp & Tu & Tp & Hfree & Hh & ->).
      exists (new_user d u (JStr h)), h.
      cbn [fst snd tables session pending with_user users articles new_user
           User_username User__password_hash User_avatar User_id].
      split; [reflexivity|]. split; [reflexivity|]. split.
      { intros name Hname. congruence. }
      split; [now exists p|]. split; [reflexivity|]. split; [reflexivity|].
      split; [apply StoreFacts.next_id_fresh|]. now split.
    + right. split; [congruence|].
      revert Hst. rewrite SignUp_post_enter.
      destruct (body !! "username") as [u|]; [|discriminate].
      destruct (body !! "password") as [p|]; [|discriminate].
      destruct (negb (truthy u) || negb (truthy p)); [reflexivity|].
      destruct (user_by_username d u); [reflexivity|].
      destruct (generate_password_hash p) as [h|e].
      * cbn. congruence.
      * now destruct e.
  - right. split; [discriminate|].
    revert Hst. rewrite SignUp_post_enter.
    destruct (body !! "username") as [u|]; [|reflexivity].
    destruct (body !! "password") as [p|]; [|reflexivity].
    destruct (negb (truthy u) || negb (truthy p)); [reflexivity|].
    destruct (user_by_username d u); [reflexivity|].
    destruct (generate_password_hash p) as [h|e]; [discriminate|].
    now destruct e.
Qed.

(** X8.  A signup logs the new user in: after a signup answered 201,
    [GET /check_session] with the cookie it set is answered 200 with the
    body that the signup returned. *)
Theorem signup_then_check_session (s : gmap string sval) (d : Database)
    (body : gmap string json) :
  let r := SignUp_post body (enter s d) in
  status_of r.1 = Some 201 ->
  exists b : json,
    r.1 = Ok (b, 201)
    /\ (CheckSession_get (enter (session r.2) (tables r.2))).1 = Ok (b, 200).
Proof.
  intros r Hst. subst r.
  destruct (SignUp_post_created s d body Hst)
    as (u & p & h & Hu & Hp & Tu & Tp & Hfree & Hh & ->).
  eexists. split; [reflexivity|].
  rewrite CheckSession_get_eq. cbn [fst snd session tables enter].
  rewrite lookup_insert_eq. cbn [default from_option id].
  now rewrite StoreFacts.user_by_id_new.
Qed.

(** X9.  Signup and login round trip: when the hash function verifies the
    hash it produced for the password, a login with the credentials of a
    signup answered 201 is answered 200 with the same body, in any session,
    and binds that session to the key the signup generated. *)
Theorem signup_then_login (s s' : gmap string sval) (d : Database)
    (body : gmap string json) (p : json) :
  let r := SignUp_post body (enter s d) in
  status_of r.1 = Some 201 ->
  body !! "password" = Some p ->
  (forall h, generate_password_hash p = Ok h -> check_password_hash (JStr h) p = Ok true) ->
  exists b : json,
    r.1 = Ok (b, 201)
    /\ (Login_post body (enter s' (tables r.2))).1 = Ok (b, 200)
    /\ session (Login_post body (enter s' (tables r.2))).2 !! "user_id"
       = session r.2 !! "user_id".
Proof.
  intros r Hst Hp' Hverify. subst r.
  destruct (SignUp_post_created s d body Hst)
    as (u & p0 & h & Hu & Hp & Tu & Tp & Hfree & Hh & ->).
  assert (p0 = p) by congruence. subst p0.
  eexists. split; [reflexivity|].
  rewrite Login_post_eq, Hu, Hp, Tu, Tp. cbn [negb orb fst snd tables enter session].
  rewrite (StoreFacts.user_by_username_new d u (JStr h) Hfree).
  cbn [new_user User__password_hash]. rewrite (Hverify h Hh).
  split; [reflexivity|]. cbn [snd session with_session].
  now rewrite !lookup_insert_eq.
Qed.

(** What a login answered 200 has gone through. *)
Lemma Login_post_logged_in (body : gmap string json) (w : World) :
  status_of (Login_post body w).1 = Some 200 ->
  exists (usr : User) (u p : json),
    body !! "username" = Some u /\ body !! "password" = Some p
    /\ user_by_username (tables w) u = Some usr
    /\ check_password_hash (User__password_hash usr) p = Ok true
    /\ Login_post body w =
         (Ok (User_to_dict (tables w) usr, 200),
          with_session w (<["user_id" := SInt (User_id usr)]> (session w))).
Proof.
  rewrite Login_post_eq.
  destruct (body !! "username") as [u|]; [|discriminate].
  destruct (body !! "password") as [p|]; [|discriminate].
  destruct (negb (truthy u) || negb (truthy p)); [discriminate|].
  destruct (user_by_username (tables w) u) as [usr|] eqn:Husr; [|discriminate].
  destruct (check_password_hash (User__password_hash usr) p) as [[|]|e] eqn:Hc;
    try discriminate.
  intros _. now exists usr, u, p.
Qed.

(** X10.  [POST /login] never writes the store, and it changes the session
    only when it is answered 200: then the username is that of a row whose
    stored hash verifies the password, the session's [user_id] becomes that
    row's key and every other key of the session is as before.  In every
    other case, a raise included, the world is as before. *)
Theorem Login_effect (body : gmap string json) (w : World) :
  let r := Login_post body w in
  tables r.2 = tables w /\ pending r.2 = pending w /\ ops r.2 = ops w
  /\ (status_of r.1 = Some 200 ->
      exists (usr : User) (u p : json),
        body !! "username" = Some u /\ body !! "password" = Some p
        /\ user_by_username (tables w) u = Some usr
        /\ check_password_hash (User__password_hash usr) p = Ok true
        /\ r.1 = Ok (User_to_dict (tables w) usr, 200)
        /\ session r.2 = <["user_id" := SInt (User_id usr)]> (session w)
        /\ (forall k, k <> "user_id" -> session r.2 !! k = session w !! k))
  /\ (status_of r.1 <> Some 200 -> r.2 = w).
Proof.
  cbn zeta.
  destruct (decide (status_of (Login_post body w).1 = Some 200)) as [Hst|Hst].
  - destruct (Login_post_logged_in body w Hst) as (usr & u & p & Hu & Hp & Husr & Hc & ->).
    cbn. repeat split; try congruence.
    intros _. exists usr, u, p. repeat split; auto.
    intros k Hk. now rewrite lookup_insert_ne by congruence.
  - assert (E : (Login_post body w).2 = w).
    { revert Hst. rewrite Login_post_eq.
      destruct (body !! "username") as [u|]; [|reflexivity].
      destruct (body !! "password") as [p|]; [|reflexivity].
      destruct (negb (truthy u) || negb (truthy p)); [reflexivity|].
      destruct (user_by_username (tables w) u) as [usr|]; [|reflexivity].
      destruct (check_password_hash (User__password_hash usr) p) as [[|]|e];
        try reflexivity.
      cbn. congruence. }
    rewrite E. repeat split; auto. contradiction.
Qed.

(** X11.  Login and check_session agree when the keys of [users] are
    unique: after a login answered 200, [GET /check_session] with the
    cookie it set is answered 200 with the same body. *)
Theorem login_then_check_session (body : gmap string json) (w : World) :
  NoDup (List.map User_id (users (tables w))) ->
  status_of (Login_post body w).1 = Some 200 ->
  exists b : json,
    (Login_post body w).1 = Ok (b, 200)
    /\ (CheckSession_get (Login_post body w).2).1 = Ok (b, 200).
Proof.
  intros Hnd Hst.
  destruct (Login_post_logged_in body w Hst) as (usr & u & p & Hu & Hp & Husr & Hc & ->).
  exists (User_to_dict (tables w) usr). split; [reflexivity|].
  rewrite CheckSession_get_eq. cbn [fst snd session tables with_session].
  rewrite lookup_insert_eq. cbn [default from_option id].
  unfold user_by_username in Husr. apply List.find_some in Husr as [Hin _].
  unfold user_by_id. now rewrite (find_NoDup_key User_id _ usr Hnd Hin).
Qed.

(** The answer of the pageview gate depends on the session through its
    counter only. *)
Lemma ShowArticle_same_counter (id : Z) (w w' : World) :
  page_views_of (session w') = page_views_of (session w) ->
  tables w' = tables w ->
  (ShowArticle_get id w').1 = (ShowArticle_get id w).1.
Proof.
  intros Hc Ht. rewrite !ShowArticleFacts.ShowArticle_get_eq. cbn [fst].
  now rewrite Hc, Ht.
Qed.

Lemma page_views_of_other_key (s : gmap string sval) (k : string) (v : sval) :
  k <> "page_views" -> page_views_of (<[k := v]> s) = page_views_of s.
Proof. intros Hk. unfold page_views_of. now rewrite lookup_insert_ne. Qed.

(** X12.  The pageview gate takes no notice of accounts: a view is answered
    the same after a login or a logout as it would have been before, so a
    session refused at the gate stays refused until [DELETE /clear]. *)
Theorem gate_ignores_login_and_logout (id : Z) (body : gmap string json) (w : World) :
  (ShowArticle_get id (Login_post body w).2).1 = (ShowArticle_get id w).1
  /\ (ShowArticle_get id (Logout_delete w).2).1 = (ShowArticle_get id w).1
  /\ (100 <= page_views_of (session w) ->
      (ShowArticle_get id (Logout_delete (Login_post body w).2).2).1 = Ok limit_reached).
Proof.
  assert (Hlogin : page_views_of (session (Login_post body w).2) = page_views_of (session w)
                   /\ tables (Login_post body w).2 = tables w).
  { destruct (decide (status_of (Login_post body w).1 = Some 200)) as [Hst|Hst].
    - destruct (Login_post_logged_in body w Hst) as (usr & u & p & _ & _ & _ & _ & ->).
      cbn. split; [|reflexivity]. now apply page_views_of_other_key.
    - revert Hst. rewrite Login_post_eq.
      destruct (body !! "username") as [u|]; [|now split].
      destruct (body !! "password") as [p|]; [|now split].
      destruct (negb (truthy u) || negb (truthy p)); [now split|].
      destruct (user_by_username (tables w) u) as [usr|]; [|now split].
      destruct (check_password_hash (User__password_hash usr) p) as [[|]|e];
        try (now split).
      all: cbn; congruence. }
  assert (Hlogout : forall w0, page_views_of (session (Logout_delete w0).2)
                               = page_views_of (session w0)
                               /\ tables (Logout_delete w0).2 = tables w0).
  { intros w0. unfold Logout_delete. run. split; [|reflexivity].
    now apply page_views_of_other_key. }
  split; [|split].
  - now apply ShowArticle_same_counter.
  - now apply ShowArticle_same_counter; apply Hlogout.
  - intros Hc. rewrite ShowArticleFacts.ShowArticle_get_eq. cbn [fst].
    rewrite (proj1 (Hlogout _)), (proj1 Hlogin).
    destruct (Z.leb_spec (page_views_of (session w) + 1) 100); [lia|reflexivity].
Qed.

(** X13.  Views never change who is logged in: after any sequence of views,
    refused ones included, [GET /check_session] is answered as before. *)
Theorem views_keep_login (ids : list Z) (w : World) :
  session (views ids w) !! "user_id" = session w !! "user_id"
  /\ (CheckSession_get (views ids w)).1 = (CheckSession_get w).1.
Proof.
  assert (Hs : session (views ids w) !! "user_id" = session w !! "user_id").
  { revert w. induction ids as [|id ids IH]; intros w; [reflexivity|].
    cbn [views]. rewrite IH, ShowArticleFacts.ShowArticle_get_eq.
    cbn [snd session with_session]. now rewrite lookup_insert_ne. }
  split; [exact Hs|].
  rewrite !CheckSession_get_eq. cbn [fst].
  now rewrite Hs, ShowArticleFacts.tables_views.
Qed.

Lemma Login_post_tables (body : gmap string json) (w : World) :
  tables (Login_post body w).2 = tables w.
Proof.
  rewrite Login_post_eq.
  destruct (body !! "username") as [u|]; [|reflexivity].
  destruct (body !! "password") as [p|]; [|reflexivity].
  destruct (negb (truthy u) || negb (truthy p)); [reflexivity|].
  destruct (user_by_username (tables w) u) as [usr|]; [|reflexivity].
  destruct (check_password_hash (User__password_hash usr) p) as [[|]|e]; reflexivity.
Qed.

Section WithCloudinary.

Context `{Cloudinary}.

(** [UploadImage.post] in closed form. *)
Lemma UploadImage_post_eq (files : gmap string FileStorage) (w : World) :
  UploadImage_post files w =
    (if negb (sval_truthy (default SNone (session w !! "user_id")))
     then Ok (JObj [("error", JStr "Unauthorized")], 401)
     else
       match files !! "image" with
       | None => Ok (JObj [("error", JStr "No image provided")], 400)
       | Some file =>
           if bool_decide (filename file = EmptyString)
           then Ok (JObj [("error", JStr "No selected file")], 400)
           else
             match uploader_upload file article_images with
             | Uploaded payload => Ok (payload, 200)
             | UploadFailed str_e => Ok (JObj [("error", JStr str_e)], 500)
             end
       end, w).
Proof.
  unfold UploadImage_post. run.
  destruct (negb (sval_truthy (default SNone (session w !! "user_id")))); [reflexivity|].
  destruct (files !! "image") as [file|]; [|reflexivity].
  destruct (bool_decide (filename file = EmptyString)); [reflexivity|].
  destruct (uploader_upload file article_images); reflexivity.
Qed.

(** X14.  [POST /upload-image] never raises and never touches session or
    store.  Without a truthy [user_id] in the session it is answered 401.
    With one: without a file under the key [image] it is answered 400 "No
    image provided"; with a file of empty name, 400 "No selected file";
    otherwise the uploader is called with the file, and its payload is
    answered 200 as it is, and whatever it raises is answered 500 with the
    message of the exception. *)
Theorem UploadImage_answers (files : gmap string FileStorage) (w : World) :
  (exists (body : json) (st : Z),
     UploadImage_post files w = (Ok (body, st), w)
     /\ (st = 200 \/ st = 400 \/ st = 401 \/ st = 500))
  /\ (sval_truthy (default SNone (session w !! "user_id")) = false ->
      UploadImage_post files w = (Ok (JObj [("error", JStr "Unauthorized")], 401), w))
  /\ (sval_truthy (default SNone (session w !! "user_id")) = true ->
      (files !! "image" = None ->
       UploadImage_post files w
       = (Ok (JObj [("error", JStr "No image provided")], 400), w))
      /\ (forall file, files !! "image" = Some file ->
            (filename file = EmptyString ->
             UploadImage_post files w
             = (Ok (JObj [("error", JStr "No selected file")], 400), w))
            /\ (filename file <> EmptyString ->
                (forall payload, uploader_upload file article_images = Uploaded payload ->
                   UploadImage_post files w = (Ok (payload, 200), w))
                /\ (forall str_e,
                      uploader_upload file article_images = UploadFailed str_e ->
                      UploadImage_post files w
                      = (Ok (JObj [("error", JStr str_e)], 500), w))))).
Proof.
  rewrite UploadImage_post_eq.
  split; [|split].
  - destruct (negb (sval_truthy (default SNone (session w !! "user_id")))).
    { eexists _, _. split; [reflexivity|]. auto. }
    destruct (files !! "image") as [file|].
    2: { eexists _, _. split; [reflexivity|]. auto. }
    destruct (bool_decide (filename file = EmptyString)).
    { eexists _, _. split; [reflexivity|]. auto. }
    destruct (uploader_upload file article_images);
      eexists _, _; (split; [reflexivity|]); auto.
  - intros ->. reflexivity.
  - intros ->. cbn [negb]. split.
    + intros ->. reflexivity.
    + intros file ->. split.
      * intros E. now rewrite (bool_decide_eq_true_2 _ E).
      * intros E. rewrite (bool_decide_eq_false_2 _ E). split.
        -- intros payload ->. reflexivity.
        -- intros str_e ->. reflexivity.
Qed.

(** X15.  Without a truthy [user_id] in the session, which is the case
    after [DELETE /logout] and after [DELETE /clear], the three endpoints
    that need a login are answered 401 and leave the world as it is: no
    article is created and nothing is uploaded. *)
Theorem logged_out_is_refused `{Runtime} (data : gmap string json)
    (files : gmap string FileStorage) (w : World) :
  (forall w', sval_truthy (default SNone (session w' !! "user_id")) = false ->
     GetArticle_get w' = (Ok (JObj [("Error", JStr "Unauthorized")], 401), w')
     /\ CreateArticle_post data w' = (Ok please_log_in, w')
     /\ UploadImage_post files w' = (Ok (JObj [("error", JStr "Unauthorized")], 401), w'))
  /\ sval_truthy (default SNone (session (Logout_delete w).2 !! "user_id")) = false
  /\ sval_truthy (default SNone (session (ClearSession_delete w).2 !! "user_id")) = false.
Proof.
  split; [|split].
  - intros w' Hf. split; [|split].
    + rewrite CreateFacts.GetArticle_get_eq.
      destruct (default SNone (session w' !! "user_id")) as [|n]; [reflexivity|].
      cbn in Hf. apply negb_false_iff in Hf. now rewrite Hf.
    + rewrite ArticleFacts.CreateArticle_post_eq. cbn zeta. now rewrite Hf.
    + rewrite UploadImage_post_eq. now rewrite Hf.
  - unfold Logout_delete. run. now rewrite lookup_insert_eq.
  - unfold ClearSession_delete. run. now rewrite lookup_insert_eq.
Qed.

End WithCloudinary.

End WithRuntime.

#[local] Existing Instance sample_runtime.
#[local] Existing Instance sample_cloudinary.

(** [alice] signs up in the empty store and asks who she is. *)
Lemma signup_then_check_session_witness :
  let r := SignUp_post (credentials (JStr "alice") (JStr "wonderland")) (enter ∅ empty_db) in
  exists b : json,
    r.1 = Ok (b, 201)
    /\ (CheckSession_get (enter (session r.2) (tables r.2))).1 = Ok (b, 200).
Proof.
  apply (@signup_then_check_session sample_runtime ∅ empty_db
           (credentials (JStr "alice") (JStr "wonderland"))).
  vm_compute. reflexivity.
Defined.

(** [alice] signs up in the empty store and logs in from another browser. *)
Lemma signup_then_login_witness :
  let r := SignUp_post (credentials (JStr "alice") (JStr "wonderland")) (enter ∅ empty_db) in
  exists b : json,
    r.1 = Ok (b, 201)
    /\ (Login_post (credentials (JStr "alice") (JStr "wonderland"))
          (enter (<["page_views" := SInt 7]> ∅) (tables r.2))).1 = Ok (b, 200)
    /\ session (Login_post (credentials (JStr "alice") (JStr "wonderland"))
                  (enter (<["page_views" := SInt 7]> ∅) (tables r.2))).2 !! "user_id"
       = session r.2 !! "user_id".
Proof.
  apply (@signup_then_login sample_runtime ∅ (<["page_views" := SInt 7]> ∅) empty_db
           (credentials (JStr "alice") (JStr "wonderland")) (JStr "wonderland")).
  - vm_compute. reflexivity.
  - reflexivity.
  - intros h Hh. vm_compute in Hh. injection Hh as <-. reflexivity.
Defined.

(** [alice] logs in to the sample store and asks who she is. *)
Lemma login_then_check_session_witness :
  exists b : json,
    (Login_post (credentials (JStr "alice") (JStr "wonderland")) (enter ∅ blog_db)).1
    = Ok (b, 200)
    /\ (CheckSession_get
          (Login_post (credentials (JStr "alice") (JStr "wonderland")) (enter ∅ blog_db)).2).1
       = Ok (b, 200).
Proof.
  apply (@login_then_check_session sample_runtime
           (credentials (JStr "alice") (JStr "wonderland")) (enter ∅ blog_db)).
  - cbn. apply NoDup_singleton.
  - vm_compute. reflexivity.
Defined.

(** A logged-in upload of a PNG and of a text file. *)
Lemma UploadImage_answers_witness :
  status_of (UploadImage_post (<["image" := cover_png]> ∅) (enter (logged_in 1) blog_db)).1
  = Some 200
  /\ UploadImage_post (<["image" := notes_txt]> ∅) (enter (logged_in 1) blog_db)
     = (Ok (JObj [("error", JStr "Image file format not allowed")], 500),
        enter (logged_in 1) blog_db).
Proof.
  pose proof (@UploadImage_answers sample_cloudinary
                (<["image" := notes_txt]> ∅) (enter (logged_in 1) blog_db))
    as (_ & _ & Hin).
  split; [reflexivity|].
  apply (proj2 (proj2 (proj2 (Hin eq_refl) notes_txt eq_refl)
                  ltac:(discriminate))).
  reflexivity.
Defined.

End AccountFacts.

(** ** Every request and the store *)

Module InvariantFacts.

Import AuthFacts SignUpFacts ArticleFacts CreateFacts AccountFacts.
#[local] Open Scope handler_scope.

Lemma user_id_field (d : Database) (a : Article) :
  obj_field "user_id" (Article_to_dict d a) = Some (Article_user_id a).
Proof. reflexivity. Qed.

Lemma nested_password_hash (d : Database) (a : Article) (u : User) :
  article_user d a = Some u ->
  obj_field "user" (Article_to_dict d a) ≫= obj_field "_password_hash"
  = Some (User__password_hash u).
Proof. intros Hu. unfold Article_to_dict. cbn. now rewrite Hu. Qed.

Section WithCollaborators.

Context `{Runtime} `{Cloudinary}.

(** What one request does to the tables: nothing, or the insert of a user
    whose username was free, or the insert of an article of an existing
    user with a tag of the enumeration. *)
Lemma dispatch_tables (r : request) (s : gmap string sval) (d : Database) :
  let d' := tables (dispatch r (enter s d)).2 in
  d' = d
  \/ (exists u h, user_by_username d u = None /\ d' = with_user d (new_user d u h))
  \/ (exists user n data,
        user_by_id d (SInt n) = Some user /\ accepted data = true
        /\ d' = with_article d (created_article d user n data)).
Proof.
  cbn zeta. destruct r as [| |id|body| | |body|data| |files]; cbn [dispatch].
  - now left.
  - now left.
  - left. now rewrite ShowArticleFacts.tables_after.
  - left. now rewrite Login_post_tables.
  - now left.
  - left. now rewrite CheckSession_get_eq.
  - rewrite SignUp_post_enter.
    destruct (body !! "username") as [u|]; [|now left].
    destruct (body !! "password") as [p|]; [|now left].
    destruct (negb (truthy u) || negb (truthy p)); [now left|].
    destruct (user_by_username d u) eqn:Hfree; [now left|].
    destruct (generate_password_hash p) as [h|e].
    + right. left. exists u, (JStr h). split; [exact Hfree|reflexivity].
    + left. now destruct e.
  - rewrite CreateArticle_post_enter.
    destruct (default SNone (s !! "user_id")) as [|n]; [now left|].
    destruct (n =? 0); [now left|].
    destruct (user_by_id d (SInt n)) as [user|] eqn:Huser; [|now left].
    destruct (accepted data) eqn:Hacc.
    + right. right. exists user, n, data. repeat split; auto.
    + destruct (forallb _ required_fields); now left.
  - left. now rewrite GetArticle_get_eq.
  - left. now rewrite UploadImage_post_eq.
Qed.

Lemma dispatch_store_ok (r : request) (s : gmap string sval) (d : Database) :
  store_ok d -> store_ok (tables (dispatch r (enter s d)).2).
Proof.
  intros Hok.
  destruct (dispatch_tables r s d)
    as [-> | [(u & h & Hfree & ->) | (user & n & data & Huser & Hacc & ->)]].
  - exact Hok.
  - now apply StoreFacts.store_ok_with_user.
  - apply StoreFacts.store_ok_with_article; [exact Hok|reflexivity| |].
    + cbn [created_article Article_tag]. now apply accepted_tag.
    + unfold has_author. cbn [created_article Article_user_id]. now rewrite Huser.
Qed.

(** X16.  The constraints of the models are invariants of the API: when
    keys and usernames are unique, every tag is in the enumeration and every
    article has its author, the same holds after any sequence of requests,
    each with any session cookie; in particular in every store reached from
    the empty one. *)
Theorem replay_store_ok (calls : list (gmap string sval * request)) (d : Database) :
  store_ok d -> store_ok (replay calls d).
Proof.
  revert d. induction calls as [|[s r] calls IH]; intros d Hok; [exact Hok|].
  cbn [replay]. apply IH. now apply dispatch_store_ok.
Qed.

(** X17.  No request updates or deletes a row: the tables after any
    sequence of requests are the tables before with rows appended, and one
    request appends at most one row. *)
Theorem replay_appends (calls : list (gmap string sval * request)) (d : Database) :
  exists (us : list User) (arts : list Article),
    users (replay calls d) = (users d ++ us)%list
    /\ articles (replay calls d) = (articles d ++ arts)%list
    /\ (length us + length arts <= length calls)%nat.
Proof.
  revert d. induction calls as [|[s r] calls IH]; intros d.
  - exists [], []. cbn. now rewrite !app_nil_r.
  - cbn [replay length].
    destruct (IH (tables (dispatch r (enter s d)).2)) as (us & arts & Hu & Ha & Hlen).
    destruct (dispatch_tables r s d)
      as [E | [(u & h & _ & E) | (user & n & data & _ & _ & E)]];
      cbn zeta in E; rewrite E in Hu, Ha |- *.
    + exists us, arts. split; [exact Hu|]. split; [exact Ha|]. lia.
    + exists (new_user d u h :: us), arts. cbn [with_user users articles] in *.
      rewrite <- app_assoc in Hu. split; [exact Hu|]. split; [exact Ha|].
      cbn [length]. lia.
    + exists us, (created_article d user n data :: arts).
      cbn [with_article users articles] in *.
      rewrite <- app_assoc in Ha. split; [exact Hu|]. split; [exact Ha|].
      cbn [length]. lia.
Qed.

End WithCollaborators.

(** X18.  [GET /my-articles] is the part of [GET /articles] that belongs to
    the session's user: its list is the list of [GET /articles], in the same
    order, restricted to the entries whose [user_id] is the session's. *)
Theorem my_articles_of_index (w : World) (n : Z) :
  session w !! "user_id" = Some (SInt n) -> n <> 0 ->
  status_of (GetArticle_get w).1 = Some 200
  /\ listing (GetArticle_get w).1
     = List.filter (fun j => bool_decide (obj_field "user_id" j = Some (JNum n)))
         (listing (IndexArticle_get w).1).
Proof.
  intros Hs Hn. rewrite GetArticle_get_eq, Hs. cbn [default from_option id fst].
  destruct (Z.eqb_spec n 0); [contradiction|]. split; [reflexivity|].
  unfold IndexArticle_get. run. cbn [listing]. unfold articles_of.
  induction (articles (tables w)) as [|a l IH]; [reflexivity|].
  cbn [List.filter List.map]. rewrite user_id_field.
  destruct (decide (Article_user_id a = JNum n)) as [E|E].
  - rewrite (bool_decide_eq_true_2 _ E).
    rewrite bool_decide_eq_true_2 by congruence. cbn [List.map]. now rewrite IH.
  - rewrite (bool_decide_eq_false_2 _ E).
    rewrite bool_decide_eq_false_2 by congruence. exact IH.
Qed.

(** X19.  The public listing carries password hashes: for every article
    whose author is a row of [users], the entry of [GET /articles], which
    needs no login, has under [user] the author's [_password_hash]. *)
Theorem index_carries_password_hashes (w : World) (a : Article) (u : User) :
  In a (articles (tables w)) -> article_user (tables w) a = Some u ->
  status_of (IndexArticle_get w).1 = Some 200
  /\ exists j, In j (listing (IndexArticle_get w).1)
               /\ obj_field "id" j = Some (JNum (Article_id a))
               /\ obj_field "user" j ≫= obj_field "_password_hash"
                  = Some (User__password_hash u).
Proof.
  intros Hin Hu. unfold IndexArticle_get. run. cbn [listing status_of].
  split; [reflexivity|].
  exists (Article_to_dict (tables w) a). split; [|split].
  - now apply List.in_map.
  - reflexivity.
  - now apply nested_password_hash.
Qed.

#[local] Existing Instance sample_runtime.
#[local] Existing Instance sample_cloudinary.

(** The sample store keeps its constraints through a signup, a login, an
    article and a duplicate signup. *)
Lemma replay_store_ok_witness :
  store_ok (replay [ (∅, POST_signup (credentials (JStr "bob") (JStr "builder")));
                     (∅, POST_login (credentials (JStr "bob") (JStr "builder")));
                     (logged_in 2, POST_articles_create draft);
                     (∅, POST_signup (credentials (JStr "bob") (JStr "other"))) ]
              blog_db).
Proof.
  apply (@replay_store_ok sample_runtime sample_cloudinary).
  apply (bool_decide_unpack _). vm_compute. reflexivity.
Defined.

(** [alice] lists her articles in the sample store. *)
Lemma my_articles_of_index_witness :
  listing (GetArticle_get (enter (logged_in 1) blog_db)).1
  = List.filter (fun j => bool_decide (obj_field "user_id" j = Some (JNum 1)))
      (listing (IndexArticle_get (enter (logged_in 1) blog_db)).1).
Proof.
  apply (proj2 (my_articles_of_index (enter (logged_in 1) blog_db) 1 eq_refl
                  ltac:(discriminate))).
Defined.

(** The listing of the sample store shows the hash of [alice]. *)
Lemma index_carries_password_hashes_witness :
  exists j, In j (listing (IndexArticle_get (enter ∅ blog_db)).1)
            /\ obj_field "id" j = Some (JNum 1)
            /\ obj_field "user" j ≫= obj_field "_password_hash"
               = Some (JStr "$2b$12$wonderland").
Proof.
  apply (proj2 (index_carries_password_hashes (enter ∅ blog_db) first_post alice
                  ltac:(now left) eq_refl)).
Defined.

End InvariantFacts.
